(** * Order fulfilment rules of merjane-refacto-js

    A shallow embedding of [ProductService], [ProductRepository],
    [OrderRepository] and [OrderService], followed by the properties of the
    fulfilment engine stated in the specification.

    Conventions of the embedding.
    - JavaScript numbers that hold integers (identifiers, quantities, lead
      times, millisecond timestamps) are values of [Z].  The subtraction
      [available -= 1] is the subtraction of doubles: its result is the
      double nearest to the exact difference, which is the exact difference
      up to [Number.MAX_SAFE_INTEGER] and can differ from it beyond.
    - A [Date] is a millisecond timestamp or the invalid date; [new Date(t)]
      clips to the ECMAScript time range, and relational operators on dates
      follow the language: both operands are converted to numbers, [null]
      converts to [0], an invalid date to [NaN], and a comparison with [NaN]
      is false.
    - A method that assigns to a field of the product it receives returns the
      product as it is after the call.
    - Calls on the collaborators (logger, notification port, SQL updates) are
      recorded, in order, in the list of events a computation emits.
    - The SQLite store is a finite map from the primary key to the row; an
      [UPDATE ... WHERE id = k] rewrites the row of key [k] when there is one
      and does nothing otherwise.  Statements on the store and calls on the
      logger and the notification port complete; the only exceptions are
      the ones the services throw and the [TypeError] of a call that the
      language rejects. *)

From Stdlib Require Import ZArith String List Lia Bool.
From stdpp Require Import base option list gmap strings pretty.

Open Scope string_scope.
Open Scope Z_scope.

(** ** Numbers *)

(** [Number.MAX_SAFE_INTEGER] *)
Definition MAX_SAFE_INTEGER : Z := 2 ^ 53 - 1.

(** The double nearest to the integer [z], ties to the even significand,
    for [z] within the range of the finite doubles.  A double has 53
    significant bits, so the integers from [2 ^ e] to [2 ^ (e + 1)], with
    [53 <= e], that are doubles are the multiples of [2 ^ (e - 52)]. *)
Definition to_double (z : Z) : Z :=
  let e := Z.log2 (Z.abs z) in
  if e <? 53 then z
  else
    let ulp := 2 ^ (e - 52) in
    let q := z / ulp in
    let r := z mod ulp in
    if 2 * r <? ulp then q * ulp
    else if ulp <? 2 * r then (q + 1) * ulp
    else if Z.even q then q * ulp
    else (q + 1) * ulp.

(** ** Dates *)

Definition MILLISECONDS_PER_DAY : Z := 1000 * 60 * 60 * 24.

Inductive JSDate : Type :=
| DateMs (t : Z)
| InvalidDate.

(** Largest magnitude of a time value (ECMAScript TimeClip). *)
Definition MAX_TIME_VALUE : Z := 8640000000000000.

(** [new Date(value)] for a numeric [value]; [None] stands for [NaN]. *)
Definition new_Date (value : option Z) : JSDate :=
  match value with
  | Some t => if Z.abs t <=? MAX_TIME_VALUE then DateMs t else InvalidDate
  | None => InvalidDate
  end.

Definition getTime (d : JSDate) : option Z :=
  match d with
  | DateMs t => Some t
  | InvalidDate => None
  end.

(** ToNumber on an operand of type [Date | null]. *)
Definition to_number (d : option JSDate) : option Z :=
  match d with
  | None => Some 0
  | Some d => getTime d
  end.

(** [a > b] and [a < b] on operands of type [Date | null]. *)
Definition date_gt (a b : option JSDate) : bool :=
  match to_number a, to_number b with
  | Some x, Some y => y <? x
  | _, _ => false
  end.

Definition date_lt (a b : option JSDate) : bool := date_gt b a.

(** ** Schema *)

Module PRODUCT_TYPE.
Definition NORMAL : string := "NORMAL".
Definition SEASONAL : string := "SEASONAL".
Definition EXPIRABLE : string := "EXPIRABLE".
End PRODUCT_TYPE.

(** A row of the [products] table.  [type] is the text column as the
    runtime sees it; the three-valued [ProductType] exists only at compile
    time. *)
Record Product : Type := mkProduct {
  id : Z;
  leadTime : Z;
  available : Z;
  type : string;
  name : string;
  expiryDate : option JSDate;
  seasonStartDate : option JSDate;
  seasonEndDate : option JSDate
}.

(** [p.available = v] *)
Definition set_available (v : Z) (p : Product) : Product :=
  {| id := id p; leadTime := leadTime p; available := v; type := type p;
     name := name p; expiryDate := expiryDate p;
     seasonStartDate := seasonStartDate p; seasonEndDate := seasonEndDate p |}.

(** [p.leadTime = v] *)
Definition set_leadTime (v : Z) (p : Product) : Product :=
  {| id := id p; leadTime := v; available := available p; type := type p;
     name := name p; expiryDate := expiryDate p;
     seasonStartDate := seasonStartDate p; seasonEndDate := seasonEndDate p |}.

Definition known_type (ty : string) : Prop :=
  ty = PRODUCT_TYPE.NORMAL \/ ty = PRODUCT_TYPE.SEASONAL \/ ty = PRODUCT_TYPE.EXPIRABLE.

(** The three tables: [products] and [orders] by primary key, and the rows
    [(orderId, productId)] of [orders_to_products]. *)
Record Database : Type := mkDatabase {
  products : gmap Z Product;
  orders : gset Z;
  ordersToProducts : list (Z * Z)
}.

Record OrderWithProducts : Type := mkOrderWithProducts {
  order_id : Z;
  order_products : list Product
}.

(** ** Collaborators and effects *)

Inductive Notification : Type :=
| sendDelayNotification (leadTime : Z) (productName : string)
| sendOutOfStockNotification (productName : string)
| sendExpirationNotification (productName : string) (expiryDate : option JSDate).

Inductive LogLevel : Type := debug | info | warn | error.

Inductive Event : Type :=
| Logged (level : LogLevel) (msg : string)
| DbUpdate (row : Product)
| Notified (n : Notification).

Inductive Exception : Type :=
| Error (message : string)
| TypeError.

Inductive Outcome (A : Type) : Type :=
| Returned (a : A)
| Thrown (e : Exception).
Arguments Returned {A} a.
Arguments Thrown {A} e.

(** The process state: the system clock, as the sequence of values that
    successive [new Date()] calls read, the number of readings taken so far,
    and the store. *)
Record World : Type := mkWorld {
  clock : nat -> Z;
  ticks : nat;
  database : Database
}.

(** An asynchronous method awaited by its caller: it transforms the world,
    emits events and either returns or throws. *)
Definition M (A : Type) : Type := World -> Outcome A * World * list Event.

Definition ret {A : Type} (a : A) : M A := fun w => (Returned a, w, []).

Definition throw {A : Type} (e : Exception) : M A := fun w => (Thrown e, w, []).

Definition bind {A B : Type} (m : M A) (k : A -> M B) : M B := fun w =>
  match m w with
  | (Returned a, w1, ev1) =>
      match k a w1 with
      | (r, w2, ev2) => (r, w2, (ev1 ++ ev2)%list)
      end
  | (Thrown e, w1, ev1) => (Thrown e, w1, ev1)
  end.

Declare Scope js_scope.
Delimit Scope js_scope with js.
Notation "x <- m ;; k" := (bind m (fun x => k))
  (at level 100, m at next level, right associativity) : js_scope.
Notation "m ;; k" := (bind m (fun _ => k))
  (at level 100, right associativity) : js_scope.
Open Scope js_scope.

Definition outcome {A : Type} (r : Outcome A * World * list Event) : Outcome A := r.1.1.
Definition world {A : Type} (r : Outcome A * World * list Event) : World := r.1.2.
Definition events {A : Type} (r : Outcome A * World * list Event) : list Event := r.2.

Definition emit (e : Event) : M unit := fun w => (Returned tt, w, [e]).

Definition logger (level : LogLevel) (msg : string) : M unit := emit (Logged level msg).

Definition ns (n : Notification) : M unit := emit (Notified n).

(** [new Date()] *)
Definition currentDate : M JSDate := fun w =>
  (Returned (DateMs (clock w (ticks w))),
   {| clock := clock w; ticks := S (ticks w); database := database w |}, []).

(** The rows written and the notifications sent by a run, in order. *)
Definition writes (evs : list Event) : list Product :=
  omap (fun e => match e with DbUpdate row => Some row | _ => None end) evs.

Definition notifications (evs : list Event) : list Notification :=
  omap (fun e => match e with Notified n => Some n | _ => None end) evs.

(** ** ProductRepository *)

Definition update_row (product : Product) (rows : gmap Z Product) : gmap Z Product :=
  match rows !! id product with
  | Some _ => <[id product := product]> rows
  | None => rows
  end.

Definition updateProduct (product : Product) : M unit := fun w =>
  (Returned tt,
   {| clock := clock w; ticks := ticks w;
      database := {| products := update_row product (products (database w));
                     orders := orders (database w);
                     ordersToProducts := ordersToProducts (database w) |} |},
   [DbUpdate product]).

Definition decrementStock (product : Product) : M Product :=
  let product := set_available (to_double (available product - 1)) product in
  updateProduct product ;;
  ret product.

Definition setOutOfStock (product : Product) : M Product :=
  let product := set_available 0 product in
  updateProduct product ;;
  ret product.

(** ** OrderRepository *)

(** [findFirst] on [orders] with the relation [products] and, through it,
    [product]: the order of key [orderId], if any, with the product of each
    of its rows of [orders_to_products], in the order of that table.  The
    foreign key on [product_id] gives every such row a product. *)
Definition findOrderWithProducts (orderId : Z) : M (option OrderWithProducts) := fun w =>
  let db := database w in
  (Returned
     (if decide (orderId ∈ orders db) then
        Some {| order_id := orderId;
                order_products :=
                  omap (fun link : Z * Z =>
                          if link.1 =? orderId then products db !! link.2 else None)
                       (ordersToProducts db) |}
      else None),
   w, []).

(** ** ProductService *)

Definition ProductHandler : Type := Product -> M Product.

Definition notifyDelay (leadTime : Z) (p : Product) : M Product :=
  let p := set_leadTime leadTime p in
  updateProduct p ;;
  ns (sendDelayNotification leadTime (name p)) ;;
  ret p.

(** The local [restockDate] of [handleSeasonalProduct].  The sum is taken
    in [Z].  For a clock reading that is a time value the doubles of the
    source give the same date: the product is a multiple of [2 ^ 10], hence
    exact below [2 ^ 63], and a sum within the time range is a safe
    integer. *)
Definition restockDate (now : JSDate) (p : Product) : JSDate :=
  new_Date ((fun t => t + leadTime p * MILLISECONDS_PER_DAY) <$> getTime now).

Definition handleSeasonalProduct (p : Product) : M Product :=
  now <- currentDate ;;
  if date_gt (Some (restockDate now p)) (seasonEndDate p) then
    ns (sendOutOfStockNotification (name p)) ;;
    setOutOfStock p
  else if date_gt (seasonStartDate p) (Some now) then
    ns (sendOutOfStockNotification (name p)) ;;
    updateProduct p ;;
    ret p
  else
    notifyDelay (leadTime p) p.

Definition handleExpiredProduct (p : Product) : M Product :=
  now <- currentDate ;;
  if (0 <? available p) && date_gt (expiryDate p) (Some now) then
    decrementStock p
  else
    ns (sendExpirationNotification (name p) (expiryDate p)) ;;
    setOutOfStock p.

Definition processNormalProduct (product : Product) : M Product :=
  if 0 <? available product then
    logger debug "Decrementing stock for normal product" ;;
    decrementStock product
  else if 0 <? leadTime product then
    logger debug "Notifying delay for normal product" ;;
    notifyDelay (leadTime product) product
  else
    logger debug "No action for normal product (out of stock, no lead time)" ;;
    ret product.

(** The local [inSeason] of [processSeasonalProduct]. *)
Definition inSeason (now : JSDate) (product : Product) : bool :=
  date_gt (Some now) (seasonStartDate product) &&
  date_lt (Some now) (seasonEndDate product).

Definition processSeasonalProduct (product : Product) : M Product :=
  now <- currentDate ;;
  if inSeason now product && (0 <? available product) then
    logger debug "Decrementing stock for seasonal product (in season)" ;;
    decrementStock product
  else
    logger debug "Handling out-of-season or unavailable seasonal product" ;;
    handleSeasonalProduct product.

Definition processExpirableProduct (product : Product) : M Product :=
  now <- currentDate ;;
  let notExpired := date_gt (expiryDate product) (Some now) in
  if (0 <? available product) && notExpired then
    logger debug "Decrementing stock for expirable product" ;;
    decrementStock product
  else
    logger debug "Handling expired or unavailable product" ;;
    handleExpiredProduct product.

(** What the property access [this.productHandlers[key]] evaluates to.  The
    table is an object literal with three own properties, so a key that is
    not among them is looked up on [Object.prototype]. *)
Inductive HandlerValue : Type :=
| own_handler (h : ProductHandler)
| inherited (key : string)
| undefined.

(** Property names of [Object.prototype]. *)
Definition Object_prototype : list string :=
  [ "constructor"; "__defineGetter__"; "__defineSetter__"; "hasOwnProperty";
    "__lookupGetter__"; "__lookupSetter__"; "isPrototypeOf";
    "propertyIsEnumerable"; "toString"; "valueOf"; "__proto__";
    "toLocaleString" ].

Definition productHandlers (key : string) : HandlerValue :=
  if (key =? PRODUCT_TYPE.NORMAL)%string then own_handler processNormalProduct
  else if (key =? PRODUCT_TYPE.SEASONAL)%string then own_handler processSeasonalProduct
  else if (key =? PRODUCT_TYPE.EXPIRABLE)%string then own_handler processExpirableProduct
  else if existsb (String.eqb key) Object_prototype then inherited key
  else undefined.

(** [await handler(product)].  An inherited value is called as a plain
    function, with no receiver: [Object] returns its argument,
    [Object.prototype.toString] returns a string, the other methods raise
    [TypeError] on the missing receiver, and the value of [__proto__] is
    not callable. *)
Definition call_handler (handler : HandlerValue) (product : Product) : M Product :=
  match handler with
  | own_handler h => h product
  | inherited key =>
      if (key =? "constructor")%string || (key =? "toString")%string
      then ret product
      else throw TypeError
  | undefined => throw TypeError
  end.

(** The error of [processProduct] for a type without a handler. *)
Definition UnsupportedTypeError (ty : string) : Exception :=
  Error ("No handler for product type " ++ ty).

Definition processProduct (product : Product) : M Product :=
  logger debug "Processing product by type" ;;
  let handler := productHandlers (type product) in
  match handler with
  | undefined =>
      logger error "No handler found for product type" ;;
      throw (UnsupportedTypeError (type product))
  | _ => call_handler handler product
  end.

(** ** OrderService *)

(** The error of [processOrder] for an identifier without an order. *)
Definition OrderNotFoundError (orderId : Z) : Exception :=
  Error ("Order " ++ pretty orderId ++ " not found").

(** The loop over [order.products]; the first exception ends it. *)
Fixpoint processProducts (items : list Product) : M unit :=
  match items with
  | [] => ret tt
  | product :: rest =>
      logger debug "Processing product" ;;
      processProduct product ;;
      processProducts rest
  end.

Definition processOrder (orderId : Z) : M Z :=
  logger info "Fetching order with products" ;;
  found <- findOrderWithProducts orderId ;;
  match found with
  | None =>
      logger warn "Order not found" ;;
      throw (OrderNotFoundError orderId)
  | Some order =>
      logger info "Processing products for order" ;;
      processProducts (order_products order) ;;
      logger info "Order processing completed" ;;
      ret (order_id order)
  end.

(** ** Vocabulary of the properties *)

(** The [k]-th date that [new Date()] returns from world [w] on. *)
Definition reading (w : World) (k : nat) : JSDate := DateMs (clock w (k + ticks w)).

(** The second reading of the clock is not earlier than the first. *)
Definition readings_in_order (w : World) : Prop :=
  clock w (ticks w) <= clock w (S (ticks w)).

(** The row of the [products] table with primary key [k]. *)
Definition stored (w : World) (k : Z) : option Product := products (database w) !! k.

(** The calls that reach the store or the notification port, in order. *)
Definition effects (evs : list Event) : list Event :=
  List.filter (fun e => match e with Logged _ _ => false | _ => true end) evs.

(** ** Scenarios of the test suite *)

Definition DAY_MS : Z := 24 * 60 * 60 * 1000.

(** A clock that starts at [t0] and advances one millisecond per reading. *)
Definition ticking (t0 : Z) : nat -> Z := fun n => t0 + Z.of_nat n.

Definition T0 : Z := 1700000000000.

Definition world_with (rows : list Product) (os : list Z) (links : list (Z * Z)) : World :=
  {| clock := ticking T0; ticks := 0%nat;
     database := {| products := list_to_map (map (fun p => (id p, p)) rows);
                    orders := list_to_set os;
                    ordersToProducts := links |} |}.

(** A store that holds the product [p] and no order. *)
Definition shelf (p : Product) : World := world_with [p] [] [].

Definition usb_cable : Product :=
  mkProduct 1 15 10 PRODUCT_TYPE.NORMAL "USB Cable" None None None.
Definition usb_dongle : Product :=
  mkProduct 1 10 0 PRODUCT_TYPE.NORMAL "USB Dongle" None None None.
Definition butter : Product :=
  mkProduct 1 15 30 PRODUCT_TYPE.EXPIRABLE "Butter" (Some (DateMs (T0 + 26 * DAY_MS))) None None.
Definition milk : Product :=
  mkProduct 1 90 6 PRODUCT_TYPE.EXPIRABLE "Milk" (Some (DateMs (T0 - 2 * DAY_MS))) None None.
Definition watermelon : Product :=
  mkProduct 1 15 30 PRODUCT_TYPE.SEASONAL "Watermelon" None
    (Some (DateMs (T0 - 2 * DAY_MS))) (Some (DateMs (T0 + 58 * DAY_MS))).
Definition cherries : Product :=
  mkProduct 1 5 0 PRODUCT_TYPE.SEASONAL "Cherries" None
    (Some (DateMs (T0 - 10 * DAY_MS))) (Some (DateMs (T0 + 30 * DAY_MS))).
Definition strawberries : Product :=
  mkProduct 1 60 0 PRODUCT_TYPE.SEASONAL "Strawberries" None
    (Some (DateMs (T0 - 10 * DAY_MS))) (Some (DateMs (T0 + 20 * DAY_MS))).
Definition grapes : Product :=
  mkProduct 1 15 30 PRODUCT_TYPE.SEASONAL "Grapes" None
    (Some (DateMs (T0 + 180 * DAY_MS))) (Some (DateMs (T0 + 240 * DAY_MS))).

(** Strawberries with stock left: in season, yet the restock date falls
    after the end of the season. *)
Definition peaches : Product :=
  mkProduct 1 60 30 PRODUCT_TYPE.SEASONAL "Peaches" None
    (Some (DateMs (T0 - 10 * DAY_MS))) (Some (DateMs (T0 + 20 * DAY_MS))).

(** Rows with more units than [MAX_SAFE_INTEGER]; the quantity is a
    double. *)
Definition bulk_butter : Product :=
  mkProduct 1 15 9007199254740994 PRODUCT_TYPE.EXPIRABLE "Butter"
    (Some (DateMs (T0 + 26 * DAY_MS))) None None.
Definition bulk_cable : Product :=
  mkProduct 1 15 9007199254740994 PRODUCT_TYPE.NORMAL "USB Cable" None None None.

(** Grapes with a lead time that outlasts the coming season. *)
Definition late_grapes : Product :=
  mkProduct 1 300 30 PRODUCT_TYPE.SEASONAL "Grapes" None
    (Some (DateMs (T0 + 180 * DAY_MS))) (Some (DateMs (T0 + 240 * DAY_MS))).

(** A row whose [type] column holds a text outside [PRODUCT_TYPE]. *)
Definition gift_card : Product :=
  mkProduct 1 15 10 "constructor" "Gift card" None None None.

Definition voucher : Product :=
  mkProduct 1 15 10 "VOUCHER" "Voucher" None None None.

(** The mixed order of the service tests: three products, one per type. *)
Definition hdmi_cable : Product :=
  mkProduct 12 15 30 PRODUCT_TYPE.NORMAL "USB Cable" None None None.
Definition cheese : Product :=
  mkProduct 13 15 20 PRODUCT_TYPE.EXPIRABLE "Butter" (Some (DateMs (T0 + 26 * DAY_MS))) None None.
Definition melon : Product :=
  mkProduct 14 15 10 PRODUCT_TYPE.SEASONAL "Watermelon" None
    (Some (DateMs (T0 - 2 * DAY_MS))) (Some (DateMs (T0 + 58 * DAY_MS))).

Definition mixed_order : World :=
  world_with [hdmi_cable; cheese; melon] [13] [(13, 12); (13, 13); (13, 14)].

(** The same store with a second order, 12, that has no line item. *)
Definition empty_order : World :=
  world_with [hdmi_cable; cheese; melon] [12; 13] [(13, 12); (13, 13); (13, 14)].

(** ** Further vocabulary and scenarios *)

(** The products that [findOrderWithProducts] resolves for an order. *)
Definition line_items (db : Database) (orderId : Z) : list Product :=
  omap (fun link : Z * Z => if link.1 =? orderId then products db !! link.2 else None)
       (ordersToProducts db).

(** What a call may change in the world: it reads the clock, and it
    rewrites rows of [products] that exist. *)
Definition same_frame (w w' : World) : Prop :=
  clock w' = clock w /\
  (ticks w <= ticks w')%nat /\
  orders (database w') = orders (database w) /\
  ordersToProducts (database w') = ordersToProducts (database w) /\
  dom (products (database w')) = dom (products (database w)).

Definition discontinued : Product :=
  mkProduct 1 0 0 PRODUCT_TYPE.NORMAL "Discontinued Adapter" None None None.
Definition yogurt : Product :=
  mkProduct 1 15 0 PRODUCT_TYPE.EXPIRABLE "Yogurt" (Some (DateMs (T0 + 10 * DAY_MS))) None None.
Definition pumpkin : Product :=
  mkProduct 1 15 10 PRODUCT_TYPE.SEASONAL "Pumpkin" None
    (Some (DateMs (T0 - 60 * DAY_MS))) (Some (DateMs (T0 - 5 * DAY_MS))).

(** Rows whose nullable date columns are [null]. *)
Definition undated_butter : Product :=
  mkProduct 1 15 30 PRODUCT_TYPE.EXPIRABLE "Butter" None None None.
Definition undated_melon : Product :=
  mkProduct 1 15 30 PRODUCT_TYPE.SEASONAL "Watermelon" None None None.

(** Cherries with a lead time of a thousand million days. *)
Definition remote_cherries : Product :=
  mkProduct 1 1000000000 0 PRODUCT_TYPE.SEASONAL "Cherries" None
    (Some (DateMs (T0 - 10 * DAY_MS))) (Some (DateMs (T0 + 30 * DAY_MS))).

(** An order whose second line item has a type without a handler. *)
Definition coupon : Product :=
  mkProduct 20 15 10 "VOUCHER" "Voucher" None None None.

Definition broken_order : World :=
  world_with [hdmi_cable; cheese; melon; coupon] [13]
             [(13, 12); (13, 20); (13, 13); (13, 14)].

(** Every row of [products] is stored under its own [id]. *)
Definition well_keyed (db : Database) : Prop :=
  forall k row, products db !! k = Some row -> id row = k.

(** A store with two orders: order 7 holds the USB cable, order 13 the
    three products of the mixed order. *)
Definition two_orders : World :=
  world_with [usb_cable; hdmi_cable; cheese; melon] [7; 13]
             [(7, 1); (13, 12); (13, 13); (13, 14)].

Definition last_cable : Product :=
  mkProduct 1 15 1 PRODUCT_TYPE.NORMAL "USB Cable" None None None.

(** ** Proof tools *)

#[local] Arguments date_gt : simpl never.
#[local] Arguments date_lt : simpl never.
#[local] Arguments inSeason : simpl never.
#[local] Arguments restockDate : simpl never.
#[local] Arguments update_row : simpl never.
#[local] Arguments Z.ltb : simpl never.
#[local] Arguments Z.sub : simpl never.
#[local] Arguments to_double : simpl never.

(** Replace a product by its fields. *)
Ltac open_product p :=
  let i := fresh "i" in let lt := fresh "lt" in let av := fresh "av" in
  let ty := fresh "ty" in let nm := fresh "nm" in let ex := fresh "ex" in
  let ss := fresh "ss" in let se := fresh "se" in
  destruct p as [i lt av ty nm ex ss se];
  unfold PRODUCT_TYPE.NORMAL, PRODUCT_TYPE.SEASONAL, PRODUCT_TYPE.EXPIRABLE in *;
  cbn in *; subst.

(** Run the engine symbolically, up to the tests on dates and quantities. *)
Ltac run :=
  cbv beta iota zeta delta
    [processProduct productHandlers call_handler Object_prototype UnsupportedTypeError
     processNormalProduct processSeasonalProduct processExpirableProduct
     handleSeasonalProduct handleExpiredProduct notifyDelay
     decrementStock setOutOfStock updateProduct
     bind ret throw logger ns emit currentDate
     PRODUCT_TYPE.NORMAL PRODUCT_TYPE.SEASONAL PRODUCT_TYPE.EXPIRABLE
     String.eqb Ascii.eqb Bool.eqb existsb
     outcome world events fst snd set_available set_leadTime];
  cbn.

(** Split on every test that is left. *)
Ltac branches :=
  repeat match goal with
         | |- context [if ?b then _ else _] => destruct b eqn:?
         end.

Ltac ltb_props :=
  repeat match goal with
         | H : (_ <? _) = true |- _ => apply Z.ltb_lt in H
         | H : (_ <? _) = false |- _ => apply Z.ltb_ge in H
         | H : andb _ _ = true |- _ => apply andb_true_iff in H as [? ?]
         end.

(** ** The scenarios, run *)

Example usb_cable_decrements :
  let r := processProduct usb_cable (shelf usb_cable) in
  outcome r = Returned (set_available 9 usb_cable) /\
  stored (world r) 1 = Some (set_available 9 usb_cable) /\
  notifications (events r) = [].
Proof. vm_compute. repeat split. Qed.

Example usb_dongle_delay :
  notifications (events (processProduct usb_dongle (shelf usb_dongle)))
  = [sendDelayNotification 10 "USB Dongle"].
Proof. reflexivity. Qed.

Example butter_decrements :
  let r := processProduct butter (shelf butter) in
  available <$> stored (world r) 1 = Some 29 /\
  notifications (events r) = [].
Proof. vm_compute. repeat split. Qed.

Example milk_expired :
  let r := processProduct milk (shelf milk) in
  notifications (events r) = [sendExpirationNotification "Milk" (expiryDate milk)] /\
  available <$> stored (world r) 1 = Some 0.
Proof. vm_compute. repeat split. Qed.

Example watermelon_decrements :
  let r := processProduct watermelon (shelf watermelon) in
  available <$> stored (world r) 1 = Some 29 /\
  notifications (events r) = [].
Proof. vm_compute. repeat split. Qed.

Example cherries_delay :
  notifications (events (processProduct cherries (shelf cherries)))
  = [sendDelayNotification 5 "Cherries"].
Proof. reflexivity. Qed.

Example strawberries_out_of_stock :
  let r := processProduct strawberries (shelf strawberries) in
  notifications (events r) = [sendOutOfStockNotification "Strawberries"] /\
  available <$> stored (world r) 1 = Some 0.
Proof. vm_compute. repeat split. Qed.

Example grapes_out_of_stock :
  let r := processProduct grapes (shelf grapes) in
  notifications (events r) = [sendOutOfStockNotification "Grapes"] /\
  available <$> stored (world r) 1 = Some 30.
Proof. vm_compute. repeat split. Qed.

Example order_999_not_found :
  outcome (processOrder 999 (world_with [] [] [])) = Thrown (Error "Order 999 not found").
Proof. vm_compute. reflexivity. Qed.

Example mixed_order_decrements_each :
  let r := processOrder 13 mixed_order in
  outcome r = Returned 13 /\
  available <$> stored (world r) 12 = Some 29 /\
  available <$> stored (world r) 13 = Some 19 /\
  available <$> stored (world r) 14 = Some 9 /\
  notifications (events r) = [].
Proof. vm_compute. repeat split. Qed.

Example voucher_rejected :
  outcome (processProduct voucher (shelf voucher))
  = Thrown (Error "No handler for product type VOUCHER").
Proof. reflexivity. Qed.

(** ** Basic facts *)

Lemma set_leadTime_same (p : Product) : set_leadTime (leadTime p) p = p.
Proof. destruct p; reflexivity. Qed.

Lemma set_available_same (p : Product) : set_available (available p) p = p.
Proof. destruct p; reflexivity. Qed.

(** Up to [MAX_SAFE_INTEGER] every natural number is a double. *)
Lemma to_double_exact (z : Z) : 0 <= z <= MAX_SAFE_INTEGER -> to_double z = z.
Proof.
  intros [H0 Hmax]. unfold to_double. cbv zeta.
  replace (Z.log2 (Z.abs z) <? 53) with true; [reflexivity|].
  symmetry. apply Z.ltb_lt. rewrite Z.abs_eq by assumption.
  destruct (Z.eq_dec z 0) as [-> | Hz]; [reflexivity|].
  apply Z.log2_lt_pow2; [lia|]. unfold MAX_SAFE_INTEGER in Hmax. lia.
Qed.

(** Rounding to a double does not change the sign. *)
Lemma to_double_nonneg (z : Z) : 0 <= z -> 0 <= to_double z.
Proof.
  intros H0. unfold to_double. cbv zeta.
  destruct (Z.log2 (Z.abs z) <? 53) eqn:He; [assumption|].
  apply Z.ltb_ge in He.
  assert (Hulp : 0 < 2 ^ (Z.log2 (Z.abs z) - 52)) by (apply Z.pow_pos_nonneg; lia).
  assert (Hq : 0 <= z / 2 ^ (Z.log2 (Z.abs z) - 52)) by (apply Z.div_pos; lia).
  repeat match goal with |- context [if ?b then _ else _] => destruct b end; nia.
Qed.

Lemma decrement_exact (a : Z) :
  0 < a <= MAX_SAFE_INTEGER -> to_double (a - 1) = a - 1.
Proof. intros H. apply to_double_exact. lia. Qed.

Lemma decrement_nonneg (a : Z) : 0 < a -> 0 <= to_double (a - 1).
Proof. intros H. apply to_double_nonneg. lia. Qed.

Lemma date_gt_DateMs (a b : Z) : date_gt (Some (DateMs a)) (Some (DateMs b)) = (b <? a).
Proof. reflexivity. Qed.

Lemma date_gt_null_r (a : Z) : date_gt (Some (DateMs a)) None = (0 <? a).
Proof. reflexivity. Qed.

Lemma date_gt_invalid_l (b : option JSDate) : date_gt (Some InvalidDate) b = false.
Proof. reflexivity. Qed.

(** A comparison that succeeds compares two numbers. *)
Lemma date_gt_true (a b : option JSDate) :
  date_gt a b = true <-> exists x y, to_number a = Some x /\ to_number b = Some y /\ y < x.
Proof.
  unfold date_gt. split.
  - destruct (to_number a) as [x|], (to_number b) as [y|]; try discriminate.
    intros H. exists x, y. apply Z.ltb_lt in H. auto.
  - intros (x & y & -> & -> & H). now apply Z.ltb_lt.
Qed.

(** A date that lies after a reading lies after every earlier reading. *)
Lemma date_gt_earlier (d : option JSDate) (t1 t2 : Z) :
  t1 <= t2 ->
  date_gt d (Some (DateMs t2)) = true -> date_gt d (Some (DateMs t1)) = true.
Proof.
  intros Hle H. apply date_gt_true in H as (x & y & Hx & Hy & Hlt).
  apply date_gt_true. exists x, t1. cbn in Hy. inversion Hy; subst.
  repeat split; [assumption | lia].
Qed.

Lemma not_in_season_before_start (p : Product) (t1 t2 : Z) :
  t1 <= t2 ->
  date_gt (seasonStartDate p) (Some (DateMs t2)) = true ->
  inSeason (DateMs t1) p = false.
Proof.
  intros Hle H. apply date_gt_true in H as (x & y & Hx & Hy & Hlt).
  cbn in Hy. inversion Hy; subst.
  unfold inSeason, date_gt at 1. rewrite Hx. cbn.
  replace (x <? t1) with false by (symmetry; apply Z.ltb_ge; lia).
  reflexivity.
Qed.

Lemma update_row_self (p : Product) (rows : gmap Z Product) :
  is_Some (rows !! id p) -> update_row p rows !! id p = Some p.
Proof.
  unfold update_row. intros [row Hrow]. rewrite Hrow.
  apply lookup_insert_eq.
Qed.

Lemma update_row_other (p : Product) (rows : gmap Z Product) (k : Z) :
  k <> id p -> update_row p rows !! k = rows !! k.
Proof.
  intros Hk. unfold update_row. destruct (rows !! id p); [|reflexivity].
  apply lookup_insert_ne. congruence.
Qed.

Lemma update_row_lookup (p : Product) (rows : gmap Z Product) (k : Z) (row : Product) :
  update_row p rows !! k = Some row -> row = p \/ rows !! k = Some row.
Proof.
  destruct (decide (k = id p)) as [->|Hk].
  - unfold update_row. destruct (rows !! id p) eqn:E.
    + rewrite lookup_insert_eq. intros [= <-]. now left.
    + rewrite E. discriminate.
  - rewrite update_row_other by assumption. now right.
Qed.

Lemma omap_all_None {A B : Type} (f : A -> option B) (l : list A) :
  (forall x, In x l -> f x = None) -> omap f l = [].
Proof.
  induction l as [|x l IH]; intros H; [reflexivity|].
  cbn. rewrite (H x) by now left. apply IH. intros y Hy. apply H. now right.
Qed.

(** ** Dispatch on the product type *)

Lemma productHandlers_cases (ty : string) :
  (ty = PRODUCT_TYPE.NORMAL /\ productHandlers ty = own_handler processNormalProduct) \/
  (ty = PRODUCT_TYPE.SEASONAL /\ productHandlers ty = own_handler processSeasonalProduct) \/
  (ty = PRODUCT_TYPE.EXPIRABLE /\ productHandlers ty = own_handler processExpirableProduct) \/
  (~ known_type ty /\ In ty Object_prototype /\ productHandlers ty = inherited ty) \/
  (~ known_type ty /\ ~ In ty Object_prototype /\ productHandlers ty = undefined).
Proof.
  unfold productHandlers, known_type.
  destruct (String.eqb_spec ty PRODUCT_TYPE.NORMAL) as [->|H1]; [now left|].
  destruct (String.eqb_spec ty PRODUCT_TYPE.SEASONAL) as [->|H2]; [now (right; left)|].
  destruct (String.eqb_spec ty PRODUCT_TYPE.EXPIRABLE) as [->|H3]; [now (right; right; left)|].
  assert (Hk : ~ (ty = PRODUCT_TYPE.NORMAL \/ ty = PRODUCT_TYPE.SEASONAL \/
                  ty = PRODUCT_TYPE.EXPIRABLE)) by tauto.
  destruct (existsb (String.eqb ty) Object_prototype) eqn:E.
  - right; right; right; left. repeat split; try assumption.
    apply existsb_exists in E as (k & Hin & Hk'). apply String.eqb_eq in Hk'. now subst.
  - right; right; right; right. repeat split; try assumption.
    intros Hin. apply Bool.not_true_iff_false in E. apply E.
    apply existsb_exists. exists ty. split; [assumption | apply String.eqb_refl].
Qed.

(** ** NORMAL products *)

Lemma normal_in_stock_decrements (p : Product) (w : World) :
  type p = PRODUCT_TYPE.NORMAL ->
  0 < available p ->
  let r := processProduct p w in
  outcome r = Returned (set_available (to_double (available p - 1)) p) /\
  effects (events r) = [DbUpdate (set_available (to_double (available p - 1)) p)].
Proof.
  intros Hty Hav. apply Z.ltb_lt in Hav.
  open_product p. run. rewrite Hav; cbn. split; reflexivity.
Qed.

(** C4. A NORMAL product with no stock and a positive lead time: the record
    is written once, unchanged, and only then one delay notification with
    the product's lead time and name is sent; [available] is still 0. *)
Theorem normal_out_of_stock_notifies_delay (p : Product) (w : World) :
  type p = PRODUCT_TYPE.NORMAL ->
  available p = 0 ->
  0 < leadTime p ->
  let r := processProduct p w in
  outcome r = Returned p /\
  available p = 0 /\
  notifications (events r) = [sendDelayNotification (leadTime p) (name p)] /\
  effects (events r) =
    [DbUpdate p; Notified (sendDelayNotification (leadTime p) (name p))] /\
  (is_Some (stored w (id p)) -> stored (world r) (id p) = Some p).
Proof.
  intros Hty Hav Hlt. apply Z.ltb_lt in Hlt. unfold stored.
  open_product p. run.
  rewrite Z.ltb_irrefl, Hlt; cbn.
  repeat split. intros H. apply update_row_self, H.
Qed.

Lemma normal_out_of_stock_notifies_delay_witness :
  type usb_dongle = PRODUCT_TYPE.NORMAL /\
  available usb_dongle = 0 /\
  0 < leadTime usb_dongle /\
  let r := processProduct usb_dongle (shelf usb_dongle) in
  outcome r = Returned usb_dongle /\
  available usb_dongle = 0 /\
  notifications (events r) = [sendDelayNotification 10 "USB Dongle"] /\
  effects (events r) =
    [DbUpdate usb_dongle; Notified (sendDelayNotification 10 "USB Dongle")] /\
  (is_Some (stored (shelf usb_dongle) 1) ->
   stored (world r) 1 = Some usb_dongle).
Proof.
  split; [reflexivity | split; [reflexivity | split; [reflexivity |]]].
  apply (normal_out_of_stock_notifies_delay usb_dongle (shelf usb_dongle));
    reflexivity.
Defined.

(** ** SEASONAL products *)

Lemma seasonal_in_season_in_stock_decrements (p : Product) (w : World) :
  type p = PRODUCT_TYPE.SEASONAL ->
  inSeason (reading w 0) p = true ->
  0 < available p ->
  let r := processProduct p w in
  outcome r = Returned (set_available (to_double (available p - 1)) p) /\
  effects (events r) = [DbUpdate (set_available (to_double (available p - 1)) p)].
Proof.
  intros Hty Hin Hav. apply Z.ltb_lt in Hav.
  open_product p. unfold reading in *; cbn in *. run.
  rewrite Hin, Hav; cbn. split; reflexivity.
Qed.

(** C1, as the specification states it, at [peaches]: a SEASONAL product in
    season with 30 units left, a lead time of 60 days and a season that ends
    in 20 days.  The restock date lies after the end of the season at both
    readings of the clock, yet no out-of-stock notification is sent. *)
Lemma seasonal_restock_after_season_end_counterexample :
  ~ (type peaches = PRODUCT_TYPE.SEASONAL ->
     (forall k, (k <= 1)%nat ->
        date_gt (Some (restockDate (reading (shelf peaches) k) peaches))
                (seasonEndDate peaches) = true) ->
     In (sendOutOfStockNotification (name peaches))
        (notifications (events (processProduct peaches (shelf peaches)))) /\
     exists p', outcome (processProduct peaches (shelf peaches)) = Returned p' /\
                available p' = 0).
Proof.
  intros H.
  destruct H as [Hsent _]; [reflexivity | | exact Hsent].
  intros [|[|k]] Hk; [reflexivity | reflexivity | lia].
Qed.

(** C1, amended.  A SEASONAL product with a season end [e] that is not
    both in season and in stock when the engine looks at it, and whose
    restock date (the second reading of the clock plus the lead time in
    days) is within the range of [Date] and after [e]: one out-of-stock
    notification with the product's name is sent and [available] is set to
    0, in the product and in its row. *)
Theorem seasonal_restock_after_season_end (p : Product) (w : World) (e : Z) :
  type p = PRODUCT_TYPE.SEASONAL ->
  inSeason (reading w 0) p && (0 <? available p) = false ->
  seasonEndDate p = Some (DateMs e) ->
  Z.abs (clock w (S (ticks w)) + leadTime p * MILLISECONDS_PER_DAY) <= MAX_TIME_VALUE ->
  e < clock w (S (ticks w)) + leadTime p * MILLISECONDS_PER_DAY ->
  let r := processProduct p w in
  exists p',
    outcome r = Returned p' /\
    available p' = 0 /\
    p' = set_available 0 p /\
    notifications (events r) = [sendOutOfStockNotification (name p)] /\
    writes (events r) = [p'] /\
    (is_Some (stored w (id p)) -> stored (world r) (id p) = Some p').
Proof.
  intros Hty Hfast Hse Hrange Hlate. unfold stored.
  open_product p. unfold reading in *; cbn in *. run.
  assert (E : date_gt (Some (restockDate (DateMs (clock w (S (ticks w))))
                               (mkProduct i lt av "SEASONAL" nm ex ss (Some (DateMs e)))))
                      (Some (DateMs e)) = true).
  { unfold restockDate, new_Date. cbn.
    replace (Z.abs (clock w (S (ticks w)) + lt * MILLISECONDS_PER_DAY) <=? MAX_TIME_VALUE)
      with true by (symmetry; apply Z.leb_le; exact Hrange).
    rewrite date_gt_DateMs. apply Z.ltb_lt. exact Hlate. }
  rewrite Hfast; cbn. rewrite E; cbn.
  eexists. split; [reflexivity|]. cbn.
  repeat split. intros H. apply update_row_self, H.
Qed.

Lemma seasonal_restock_after_season_end_witness :
  type strawberries = PRODUCT_TYPE.SEASONAL /\
  inSeason (reading (shelf strawberries) 0) strawberries
    && (0 <? available strawberries) = false /\
  seasonEndDate strawberries = Some (DateMs (T0 + 20 * DAY_MS)) /\
  Z.abs (clock (shelf strawberries) (S (ticks (shelf strawberries)))
         + leadTime strawberries * MILLISECONDS_PER_DAY) <= MAX_TIME_VALUE /\
  T0 + 20 * DAY_MS < clock (shelf strawberries) (S (ticks (shelf strawberries)))
                     + leadTime strawberries * MILLISECONDS_PER_DAY /\
  let r := processProduct strawberries (shelf strawberries) in
  exists p',
    outcome r = Returned p' /\
    available p' = 0 /\
    p' = set_available 0 strawberries /\
    notifications (events r) = [sendOutOfStockNotification "Strawberries"] /\
    writes (events r) = [p'] /\
    (is_Some (stored (shelf strawberries) 1) -> stored (world r) 1 = Some p').
Proof.
  assert (Hrange : Z.abs (clock (shelf strawberries) (S (ticks (shelf strawberries)))
                          + leadTime strawberries * MILLISECONDS_PER_DAY) <= MAX_TIME_VALUE)
    by (vm_compute; discriminate).
  assert (Hlate : T0 + 20 * DAY_MS
                  < clock (shelf strawberries) (S (ticks (shelf strawberries)))
                    + leadTime strawberries * MILLISECONDS_PER_DAY)
    by (vm_compute; reflexivity).
  split; [reflexivity | split; [reflexivity | split; [reflexivity |
    split; [exact Hrange | split; [exact Hlate |]]]]].
  apply (seasonal_restock_after_season_end strawberries (shelf strawberries) _
           eq_refl eq_refl eq_refl Hrange Hlate).
Defined.

(** C2, as the specification states it, at [late_grapes]: a SEASONAL product
    with 30 units whose season starts in 180 days and ends in 240, with a
    lead time of 300 days.  The season start is in the future at both
    readings of the clock, yet [available] does not keep its value. *)
Lemma seasonal_before_season_start_counterexample :
  ~ (type late_grapes = PRODUCT_TYPE.SEASONAL ->
     (forall k, (k <= 1)%nat ->
        date_gt (seasonStartDate late_grapes) (Some (reading (shelf late_grapes) k)) = true) ->
     In (sendOutOfStockNotification (name late_grapes))
        (notifications (events (processProduct late_grapes (shelf late_grapes)))) /\
     outcome (processProduct late_grapes (shelf late_grapes)) = Returned late_grapes /\
     writes (events (processProduct late_grapes (shelf late_grapes))) = [late_grapes]).
Proof.
  intros H.
  destruct H as (_ & Hkept & _); [reflexivity | | discriminate Hkept].
  intros [|[|k]] Hk; [reflexivity | reflexivity | lia].
Qed.

(** C2, amended.  A SEASONAL product whose season start is after the second
    reading of the clock, and whose restock date is not after the end of the
    season: one out-of-stock notification with the product's name is sent,
    the product keeps its [available], and the record is written once with
    that value. *)
Theorem seasonal_before_season_start (p : Product) (w : World) :
  type p = PRODUCT_TYPE.SEASONAL ->
  readings_in_order w ->
  date_gt (Some (restockDate (reading w 1) p)) (seasonEndDate p) = false ->
  date_gt (seasonStartDate p) (Some (reading w 1)) = true ->
  let r := processProduct p w in
  outcome r = Returned p /\
  notifications (events r) = [sendOutOfStockNotification (name p)] /\
  writes (events r) = [p] /\
  (is_Some (stored w (id p)) -> stored (world r) (id p) = Some p).
Proof.
  intros Hty Hclock Hfeasible Hfuture. unfold stored.
  pose proof (not_in_season_before_start p _ _ Hclock Hfuture) as Hout.
  open_product p. unfold reading in *; cbn in *. run.
  rewrite Hout; cbn. rewrite Hfeasible, Hfuture; cbn.
  repeat split. intros H. apply update_row_self, H.
Qed.

Lemma seasonal_before_season_start_witness :
  type grapes = PRODUCT_TYPE.SEASONAL /\
  readings_in_order (shelf grapes) /\
  date_gt (Some (restockDate (reading (shelf grapes) 1) grapes)) (seasonEndDate grapes)
    = false /\
  date_gt (seasonStartDate grapes) (Some (reading (shelf grapes) 1)) = true /\
  let r := processProduct grapes (shelf grapes) in
  outcome r = Returned grapes /\
  notifications (events r) = [sendOutOfStockNotification "Grapes"] /\
  writes (events r) = [grapes] /\
  (is_Some (stored (shelf grapes) 1) -> stored (world r) 1 = Some grapes).
Proof.
  assert (Hclock : readings_in_order (shelf grapes)) by (vm_compute; discriminate).
  split; [reflexivity | split; [exact Hclock | split; [reflexivity | split; [reflexivity |]]]].
  apply (seasonal_before_season_start grapes (shelf grapes));
    [reflexivity | exact Hclock | reflexivity ..].
Defined.

(** ** EXPIRABLE products *)

(** C3, as the specification states it, at [bulk_butter]: an EXPIRABLE
    product with 9007199254740994 units and an expiry date in the future.
    The engine decrements, and the double nearest to the difference is
    9007199254740992: [available] does not decrease by exactly 1. *)
Lemma expirable_decrements_or_expires_counterexample :
  ~ (type bulk_butter = PRODUCT_TYPE.EXPIRABLE ->
     0 < available bulk_butter ->
     (forall k, (k <= 1)%nat ->
        date_gt (expiryDate bulk_butter) (Some (reading (shelf bulk_butter) k)) = true) ->
     exists p',
       outcome (processProduct bulk_butter (shelf bulk_butter)) = Returned p' /\
       available p' = available bulk_butter - 1 /\
       notifications (events (processProduct bulk_butter (shelf bulk_butter))) = []).
Proof.
  intros H.
  destruct H as (p' & Hout & Hav & _); [reflexivity | reflexivity | |].
  - intros [|[|k]] Hk; [reflexivity | reflexivity | lia].
  - vm_compute in Hout. injection Hout as <-. vm_compute in Hav. discriminate Hav.
Qed.

(** C3, amended.  An EXPIRABLE product with stock, at most
    [MAX_SAFE_INTEGER] units, whose expiry date is after the first reading
    of the clock loses exactly one unit and no notification is sent; an
    EXPIRABLE product without stock, or whose expiry date is not after that
    reading, gets one expiration notification with its name and expiry
    date, and its [available] becomes 0. *)
Theorem expirable_decrements_or_expires (p : Product) (w : World) :
  type p = PRODUCT_TYPE.EXPIRABLE ->
  readings_in_order w ->
  let r := processProduct p w in
  (0 < available p <= MAX_SAFE_INTEGER /\
   date_gt (expiryDate p) (Some (reading w 0)) = true ->
   exists p',
     outcome r = Returned p' /\
     available p' = available p - 1 /\
     p' = set_available (available p - 1) p /\
     notifications (events r) = [] /\
     writes (events r) = [p'] /\
     (is_Some (stored w (id p)) -> stored (world r) (id p) = Some p')) /\
  (~ (0 < available p /\ date_gt (expiryDate p) (Some (reading w 0)) = true) ->
   exists p',
     outcome r = Returned p' /\
     available p' = 0 /\
     p' = set_available 0 p /\
     notifications (events r) = [sendExpirationNotification (name p) (expiryDate p)] /\
     writes (events r) = [p'] /\
     (is_Some (stored w (id p)) -> stored (world r) (id p) = Some p')).
Proof.
  intros Hty Hclock. unfold stored, readings_in_order in *.
  open_product p. unfold reading in *; cbn in *. run.
  split.
  - intros [Hav Hexp]. rewrite (decrement_exact av Hav).
    destruct Hav as [Hav _]. apply Z.ltb_lt in Hav. rewrite Hav, Hexp; cbn.
    eexists. split; [reflexivity|]. cbn.
    repeat split. intros H. apply update_row_self, H.
  - intros Hno.
    assert (H1 : (0 <? av) && date_gt ex (Some (DateMs (clock w (ticks w)))) = false).
    { apply Bool.not_true_iff_false. intros [H1 H2]%andb_true_iff.
      apply Hno. split; [now apply Z.ltb_lt | assumption]. }
    assert (H2 : (0 <? av) && date_gt ex (Some (DateMs (clock w (S (ticks w))))) = false).
    { apply Bool.not_true_iff_false. intros [H2 H3]%andb_true_iff.
      apply Hno. split; [now apply Z.ltb_lt |].
      exact (date_gt_earlier _ _ _ Hclock H3). }
    rewrite H1; cbn. rewrite H2; cbn.
    eexists. split; [reflexivity|]. cbn.
    repeat split. intros H. apply update_row_self, H.
Qed.

(** The theorem at [butter], which is decremented, and at [milk], which is
    expired. *)
Lemma expirable_decrements_or_expires_witness :
  (type butter = PRODUCT_TYPE.EXPIRABLE /\
   readings_in_order (shelf butter) /\
   0 < available butter <= MAX_SAFE_INTEGER /\
   date_gt (expiryDate butter) (Some (reading (shelf butter) 0)) = true /\
   exists p',
     outcome (processProduct butter (shelf butter)) = Returned p' /\
     available p' = available butter - 1 /\
     p' = set_available (available butter - 1) butter /\
     notifications (events (processProduct butter (shelf butter))) = [] /\
     writes (events (processProduct butter (shelf butter))) = [p'] /\
     (is_Some (stored (shelf butter) (id butter)) ->
      stored (world (processProduct butter (shelf butter))) (id butter) = Some p')) /\
  (type milk = PRODUCT_TYPE.EXPIRABLE /\
   readings_in_order (shelf milk) /\
   ~ (0 < available milk /\
      date_gt (expiryDate milk) (Some (reading (shelf milk) 0)) = true) /\
   exists p',
     outcome (processProduct milk (shelf milk)) = Returned p' /\
     available p' = 0 /\
     p' = set_available 0 milk /\
     notifications (events (processProduct milk (shelf milk)))
     = [sendExpirationNotification (name milk) (expiryDate milk)] /\
     writes (events (processProduct milk (shelf milk))) = [p'] /\
     (is_Some (stored (shelf milk) (id milk)) ->
      stored (world (processProduct milk (shelf milk))) (id milk) = Some p')).
Proof.
  assert (Hclock1 : readings_in_order (shelf butter)) by (vm_compute; discriminate).
  assert (Hclock2 : readings_in_order (shelf milk)) by (vm_compute; discriminate).
  assert (Hsafe : 0 < available butter <= MAX_SAFE_INTEGER)
    by (split; [reflexivity | vm_compute; discriminate]).
  assert (Hfresh : date_gt (expiryDate butter) (Some (reading (shelf butter) 0)) = true)
    by reflexivity.
  assert (Hexpired : ~ (0 < available milk /\
                        date_gt (expiryDate milk) (Some (reading (shelf milk) 0)) = true))
    by (intros [_ H]; vm_compute in H; discriminate H).
  split.
  - split; [reflexivity | split; [exact Hclock1 | split; [exact Hsafe |
      split; [exact Hfresh |]]]].
    apply (expirable_decrements_or_expires butter (shelf butter) eq_refl Hclock1).
    split; [exact Hsafe | exact Hfresh].
  - split; [reflexivity | split; [exact Hclock2 | split; [exact Hexpired |]]].
    apply (expirable_decrements_or_expires milk (shelf milk) eq_refl Hclock2).
    exact Hexpired.
Defined.

(** ** Properties of every application *)

(** C5. One application of the engine to a product of a known type writes
    at most one record and sends at most one notification. *)
Theorem at_most_one_write_and_one_notification (p : Product) (w : World) :
  known_type (type p) ->
  let r := processProduct p w in
  (length (writes (events r)) <= 1)%nat /\
  (length (notifications (events r)) <= 1)%nat.
Proof.
  intros [Hty | [Hty | Hty]]; open_product p; run; branches; cbn; lia.
Qed.

Lemma at_most_one_write_and_one_notification_witness :
  known_type (type strawberries) /\
  let r := processProduct strawberries (shelf strawberries) in
  (length (writes (events r)) <= 1)%nat /\
  (length (notifications (events r)) <= 1)%nat.
Proof.
  assert (Hty : known_type (type strawberries)) by (right; left; reflexivity).
  split; [exact Hty |].
  apply (at_most_one_write_and_one_notification strawberries (shelf strawberries) Hty).
Defined.

(** C6. [available] is an integer, as the column is.  When it is not
    negative before the engine runs, it is not negative afterwards, in the product, in every record written and, if no
    row of the table was negative, in every row of the table.  The value
    the engine leaves is the old one, 0, or the result of [available -= 1],
    and the last only when the old value was positive; up to
    [MAX_SAFE_INTEGER] that result is the old value less 1. *)
Theorem available_never_negative (p : Product) (w : World) :
  0 <= available p ->
  let r := processProduct p w in
  (forall p', outcome r = Returned p' ->
     0 <= available p' /\
     (available p' = available p \/
      available p' = 0 \/
      (0 < available p /\ available p' = to_double (available p - 1) /\
       (available p <= MAX_SAFE_INTEGER -> available p' = available p - 1)))) /\
  (forall row, In row (writes (events r)) -> 0 <= available row) /\
  ((forall k row, stored w k = Some row -> 0 <= available row) ->
   forall k row, stored (world r) k = Some row -> 0 <= available row).
Proof.
  intros Hav. unfold stored.
  destruct (productHandlers_cases (type p))
    as [[Hty Hh] | [[Hty Hh] | [[Hty Hh] | [(Hty & Hin & Hh) | (Hty & Hin & Hh)]]]].
  1-3: clear Hh; open_product p; run; branches; cbn; ltb_props;
    try (pose proof (decrement_nonneg av ltac:(assumption)) as Hdec);
    (split; [intros p' [= <-]; cbn;
             (split; [lia |
                first [ now left
                      | right; left; reflexivity
                      | right; right; split; [assumption | split; [reflexivity |]];
                        intros Hsafe; apply decrement_exact; lia ]]) |
     split; [intros row Hrow; repeat destruct Hrow as [<- | Hrow]; cbn; try lia; contradiction |
             intros Hdb k row Hrow;
             try (apply update_row_lookup in Hrow as [-> | Hrow]; [cbn; lia|]);
             exact (Hdb k row Hrow)]]).
  - unfold processProduct. rewrite Hh. cbn.
    destruct ((type p =? "constructor")%string || (type p =? "toString")%string); cbn;
      (split; [intros p' [= <-]; (split; [lia | now left]) | split; [contradiction | auto]]).
  - unfold processProduct. rewrite Hh. cbn.
    split; [discriminate | split; [contradiction | auto]].
Qed.

Lemma available_never_negative_witness :
  0 <= available usb_cable /\
  let r := processProduct usb_cable (shelf usb_cable) in
  (forall p', outcome r = Returned p' ->
     0 <= available p' /\
     (available p' = available usb_cable \/
      available p' = 0 \/
      (0 < available usb_cable /\ available p' = to_double (available usb_cable - 1) /\
       (available usb_cable <= MAX_SAFE_INTEGER ->
        available p' = available usb_cable - 1)))) /\
  (forall row, In row (writes (events r)) -> 0 <= available row) /\
  ((forall k row, stored (shelf usb_cable) k = Some row -> 0 <= available row) ->
   forall k row, stored (world r) k = Some row -> 0 <= available row).
Proof.
  assert (Hav : 0 <= available usb_cable) by (vm_compute; discriminate).
  split; [exact Hav |].
  apply (available_never_negative usb_cable (shelf usb_cable) Hav).
Defined.

(** C10, as the specification states it, at [bulk_cable]: a NORMAL product
    with 9007199254740994 units.  The engine decrements, and the value it
    leaves, 9007199254740992, is neither the old value, nor the old value
    less 1, nor 0. *)
Lemma only_available_changes_counterexample :
  ~ (known_type (type bulk_cable) ->
     exists p',
       outcome (processProduct bulk_cable (shelf bulk_cable)) = Returned p' /\
       id p' = id bulk_cable /\ name p' = name bulk_cable /\
       type p' = type bulk_cable /\ leadTime p' = leadTime bulk_cable /\
       expiryDate p' = expiryDate bulk_cable /\
       seasonStartDate p' = seasonStartDate bulk_cable /\
       seasonEndDate p' = seasonEndDate bulk_cable /\
       (available p' = available bulk_cable \/
        available p' = available bulk_cable - 1 \/
        available p' = 0)).
Proof.
  intros H.
  destruct H as (p' & Hout & _ & _ & _ & _ & _ & _ & _ & Hav); [left; reflexivity |].
  vm_compute in Hout. injection Hout as <-.
  vm_compute in Hav. destruct Hav as [Hav | [Hav | Hav]]; discriminate Hav.
Qed.

(** C10, amended.  For a product of a known type the engine returns, and
    the product it leaves differs from the one it received in [available]
    at most: [id], [name], [type], [leadTime], [expiryDate],
    [seasonStartDate] and [seasonEndDate] keep their values.  When
    [available] is at most [MAX_SAFE_INTEGER], it keeps its value, loses
    exactly 1, or becomes 0.  Every record written is that product, and so
    is its row if a write took place. *)
Theorem only_available_changes (p : Product) (w : World) :
  known_type (type p) ->
  let r := processProduct p w in
  exists p',
    outcome r = Returned p' /\
    id p' = id p /\ name p' = name p /\ type p' = type p /\
    leadTime p' = leadTime p /\ expiryDate p' = expiryDate p /\
    seasonStartDate p' = seasonStartDate p /\ seasonEndDate p' = seasonEndDate p /\
    (available p <= MAX_SAFE_INTEGER ->
     available p' = available p \/ available p' = available p - 1 \/ available p' = 0) /\
    (forall row, In row (writes (events r)) -> row = p') /\
    (forall row, stored w (id p) = Some row ->
       stored (world r) (id p) = Some row \/ stored (world r) (id p) = Some p').
Proof.
  unfold stored.
  intros [Hty | [Hty | Hty]]; open_product p; run; branches; cbn; ltb_props;
    eexists; (split; [reflexivity|]); cbn; repeat (split; [reflexivity|]);
    (split; [intros Hsafe; try (right; left; apply decrement_exact; lia); auto|]);
    (split; [intros row Hrow; repeat destruct Hrow as [<- | Hrow];
             try reflexivity; contradiction|]);
    intros row Hrow; try (now left); right; apply update_row_self; eauto.
Qed.

Lemma only_available_changes_witness :
  known_type (type cherries) /\
  let r := processProduct cherries (shelf cherries) in
  exists p',
    outcome r = Returned p' /\
    id p' = id cherries /\ name p' = name cherries /\ type p' = type cherries /\
    leadTime p' = leadTime cherries /\ expiryDate p' = expiryDate cherries /\
    seasonStartDate p' = seasonStartDate cherries /\
    seasonEndDate p' = seasonEndDate cherries /\
    (available cherries <= MAX_SAFE_INTEGER ->
     available p' = available cherries \/ available p' = available cherries - 1 \/
     available p' = 0) /\
    (forall row, In row (writes (events r)) -> row = p') /\
    (forall row, stored (shelf cherries) (id cherries) = Some row ->
       stored (world r) (id cherries) = Some row \/
       stored (world r) (id cherries) = Some p').
Proof.
  assert (Hty : known_type (type cherries)) by (right; left; reflexivity).
  split; [exact Hty |].
  apply (only_available_changes cherries (shelf cherries) Hty).
Defined.

(** ** Products without a handler *)

Lemma known_type_is_handled (p : Product) (w : World) :
  known_type (type p) -> exists p', outcome (processProduct p w) = Returned p'.
Proof.
  intros [Hty | [Hty | Hty]]; open_product p; run; branches; cbn; eauto.
Qed.

(** The error is raised exactly for the types that are neither a key of the
    handler table nor a property name of [Object.prototype]. *)
Lemma unsupported_type_error_iff (p : Product) (w : World) :
  outcome (processProduct p w) = Thrown (UnsupportedTypeError (type p)) <->
  ~ known_type (type p) /\ ~ In (type p) Object_prototype.
Proof.
  destruct (productHandlers_cases (type p))
    as [[Hty Hh] | [[Hty Hh] | [[Hty Hh] | [(Hty & Hin & Hh) | (Hty & Hin & Hh)]]]].
  1-3: assert (Hk : known_type (type p)) by (unfold known_type; tauto);
    destruct (known_type_is_handled p w Hk) as [p' Hp']; rewrite Hp';
    split; [discriminate | tauto].
  - unfold processProduct. rewrite Hh. cbn.
    destruct ((type p =? "constructor")%string || (type p =? "toString")%string); cbn;
      (split; [discriminate | tauto]).
  - unfold processProduct. rewrite Hh. cbn.
    split; [intros _; split; assumption | reflexivity].
Qed.

(** C7, at [gift_card], a product whose type is the text "constructor": the
    type is none of NORMAL, SEASONAL, EXPIRABLE, and the engine returns
    without an error and without touching the product or the store. *)
Theorem inherited_type_is_not_rejected :
  ~ known_type (type gift_card) /\
  processProduct gift_card (shelf gift_card) =
    (Returned gift_card, shelf gift_card, [Logged debug "Processing product by type"]).
Proof.
  split; [|reflexivity].
  unfold known_type. cbn. intros [H | [H | H]]; discriminate H.
Qed.

(** ** Orders *)

(** C8. An identifier that is the key of no order: [processOrder] throws
    the not-found error, the world is the one it started from, nothing is
    written and no notification is sent. *)
Theorem order_not_found (orderId : Z) (w : World) :
  orderId ∉ orders (database w) ->
  let r := processOrder orderId w in
  outcome r = Thrown (OrderNotFoundError orderId) /\
  world r = w /\
  writes (events r) = [] /\
  notifications (events r) = [].
Proof.
  intros Habsent. unfold processOrder, bind, findOrderWithProducts, logger, emit. cbn.
  destruct (decide (orderId ∈ orders (database w))) as [Hin | _]; [contradiction|].
  cbn. repeat split.
Qed.

Lemma order_not_found_witness :
  (999 ∉ orders (database mixed_order)) /\
  let r := processOrder 999 mixed_order in
  outcome r = Thrown (OrderNotFoundError 999) /\
  world r = mixed_order /\
  writes (events r) = [] /\
  notifications (events r) = [].
Proof.
  assert (Habsent : 999 ∉ orders (database mixed_order)) by (vm_compute; discriminate).
  split; [exact Habsent |].
  apply (order_not_found 999 mixed_order Habsent).
Defined.

(** C9. An order that exists and has no row in [orders_to_products]:
    [processOrder] returns the order's identifier, the world is the one it
    started from, nothing is written and no notification is sent. *)
Theorem empty_order_succeeds (orderId : Z) (w : World) :
  orderId ∈ orders (database w) ->
  (forall link, In link (ordersToProducts (database w)) -> link.1 <> orderId) ->
  let r := processOrder orderId w in
  outcome r = Returned orderId /\
  world r = w /\
  writes (events r) = [] /\
  notifications (events r) = [].
Proof.
  intros Hin Hempty. unfold processOrder, bind, findOrderWithProducts, logger, emit. cbn.
  destruct (decide (orderId ∈ orders (database w))) as [_ | Hout]; [|contradiction].
  rewrite omap_all_None.
  - cbn. repeat split.
  - intros link Hlink. apply Hempty in Hlink.
    destruct (link.1 =? orderId) eqn:E; [|reflexivity].
    apply Z.eqb_eq in E. contradiction.
Qed.

Lemma empty_order_succeeds_witness :
  (12 ∈ orders (database empty_order)) /\
  (forall link, In link (ordersToProducts (database empty_order)) -> link.1 <> 12) /\
  let r := processOrder 12 empty_order in
  outcome r = Returned 12 /\
  world r = empty_order /\
  writes (events r) = [] /\
  notifications (events r) = [].
Proof.
  assert (Hin : 12 ∈ orders (database empty_order)) by (vm_compute; reflexivity).
  assert (Hempty : forall link, In link (ordersToProducts (database empty_order)) ->
                                link.1 <> 12).
  { intros link [<- | [<- | [<- | []]]]; cbn; lia. }
  split; [exact Hin | split; [exact Hempty |]].
  apply (empty_order_succeeds 12 empty_order Hin Hempty).
Defined.

(** ** The rule table, row by row *)

(** X1. A NORMAL product with stock, at most [MAX_SAFE_INTEGER] units,
    loses exactly one unit: the record is written once with the new
    quantity and no notification is sent. *)
Theorem normal_in_stock_loses_one_unit (p : Product) (w : World) :
  type p = PRODUCT_TYPE.NORMAL ->
  0 < available p <= MAX_SAFE_INTEGER ->
  let r := processProduct p w in
  exists p',
    outcome r = Returned p' /\
    available p' = available p - 1 /\
    p' = set_available (available p - 1) p /\
    effects (events r) = [DbUpdate p'] /\
    (is_Some (stored w (id p)) -> stored (world r) (id p) = Some p').
Proof.
  intros Hty Hav. unfold stored.
  open_product p. run. rewrite (decrement_exact av Hav).
  destruct Hav as [Hav _]. apply Z.ltb_lt in Hav. rewrite Hav; cbn.
  eexists. split; [reflexivity|]. cbn.
  repeat split. intros H. apply update_row_self, H.
Qed.

Lemma normal_in_stock_loses_one_unit_witness :
  type usb_cable = PRODUCT_TYPE.NORMAL /\
  0 < available usb_cable <= MAX_SAFE_INTEGER /\
  let r := processProduct usb_cable (shelf usb_cable) in
  exists p',
    outcome r = Returned p' /\
    available p' = available usb_cable - 1 /\
    p' = set_available (available usb_cable - 1) usb_cable /\
    effects (events r) = [DbUpdate p'] /\
    (is_Some (stored (shelf usb_cable) (id usb_cable)) ->
     stored (world r) (id usb_cable) = Some p').
Proof.
  assert (Hav : 0 < available usb_cable <= MAX_SAFE_INTEGER)
    by (split; [reflexivity | vm_compute; discriminate]).
  split; [reflexivity | split; [exact Hav |]].
  apply (normal_in_stock_loses_one_unit usb_cable (shelf usb_cable) eq_refl Hav).
Defined.

(** X2. A NORMAL product with no stock and no positive lead time: nothing
    is written, nothing is sent, and the world stays as it was. *)
Theorem normal_without_stock_or_lead_time (p : Product) (w : World) :
  type p = PRODUCT_TYPE.NORMAL ->
  available p <= 0 ->
  leadTime p <= 0 ->
  let r := processProduct p w in
  outcome r = Returned p /\ world r = w /\ effects (events r) = [].
Proof.
  intros Hty Hav Hlt. apply Z.ltb_ge in Hav, Hlt.
  open_product p. run. rewrite Hav, Hlt; cbn.
  repeat split.
Qed.

Lemma normal_without_stock_or_lead_time_witness :
  type discontinued = PRODUCT_TYPE.NORMAL /\
  available discontinued <= 0 /\
  leadTime discontinued <= 0 /\
  let r := processProduct discontinued (shelf discontinued) in
  outcome r = Returned discontinued /\ world r = shelf discontinued /\
  effects (events r) = [].
Proof.
  assert (H0 : 0 <= 0) by (vm_compute; discriminate).
  split; [reflexivity | split; [exact H0 | split; [exact H0 |]]].
  apply (normal_without_stock_or_lead_time discontinued (shelf discontinued));
    [reflexivity | exact H0 | exact H0].
Defined.

(** X3. A SEASONAL product that is in season at the first reading of the
    clock and has stock, at most [MAX_SAFE_INTEGER] units, loses exactly
    one unit; nothing is sent, whatever its lead time. *)
Theorem seasonal_in_season_loses_one_unit (p : Product) (w : World) :
  type p = PRODUCT_TYPE.SEASONAL ->
  inSeason (reading w 0) p = true ->
  0 < available p <= MAX_SAFE_INTEGER ->
  let r := processProduct p w in
  exists p',
    outcome r = Returned p' /\
    available p' = available p - 1 /\
    p' = set_available (available p - 1) p /\
    effects (events r) = [DbUpdate p'] /\
    (is_Some (stored w (id p)) -> stored (world r) (id p) = Some p').
Proof.
  intros Hty Hin Hav. unfold stored.
  open_product p. unfold reading in *; cbn in *. run.
  rewrite (decrement_exact av Hav).
  destruct Hav as [Hav _]. apply Z.ltb_lt in Hav. rewrite Hin, Hav; cbn.
  eexists. split; [reflexivity|]. cbn.
  repeat split. intros H. apply update_row_self, H.
Qed.

Lemma seasonal_in_season_loses_one_unit_witness :
  type watermelon = PRODUCT_TYPE.SEASONAL /\
  inSeason (reading (shelf watermelon) 0) watermelon = true /\
  0 < available watermelon <= MAX_SAFE_INTEGER /\
  let r := processProduct watermelon (shelf watermelon) in
  exists p',
    outcome r = Returned p' /\
    available p' = available watermelon - 1 /\
    p' = set_available (available watermelon - 1) watermelon /\
    effects (events r) = [DbUpdate p'] /\
    (is_Some (stored (shelf watermelon) (id watermelon)) ->
     stored (world r) (id watermelon) = Some p').
Proof.
  assert (Hav : 0 < available watermelon <= MAX_SAFE_INTEGER)
    by (split; [reflexivity | vm_compute; discriminate]).
  split; [reflexivity | split; [reflexivity | split; [exact Hav |]]].
  apply (seasonal_in_season_loses_one_unit watermelon (shelf watermelon)
           eq_refl eq_refl Hav).
Defined.

(** X4. A SEASONAL product that does not take the decrement, whose restock
    date is not after the end of the season and whose season start is not
    after the second reading of the clock: the record is written unchanged
    and then a delay notification with its lead time and name is sent. *)
Theorem seasonal_restock_in_time_notifies_delay (p : Product) (w : World) :
  type p = PRODUCT_TYPE.SEASONAL ->
  inSeason (reading w 0) p && (0 <? available p) = false ->
  date_gt (Some (restockDate (reading w 1) p)) (seasonEndDate p) = false ->
  date_gt (seasonStartDate p) (Some (reading w 1)) = false ->
  let r := processProduct p w in
  outcome r = Returned p /\
  effects (events r) =
    [DbUpdate p; Notified (sendDelayNotification (leadTime p) (name p))] /\
  (is_Some (stored w (id p)) -> stored (world r) (id p) = Some p).
Proof.
  intros Hty Hfast Hfeasible Hstarted. unfold stored.
  open_product p. unfold reading in *; cbn in *. run.
  rewrite Hfast; cbn. rewrite Hfeasible, Hstarted; cbn.
  repeat split. intros H. apply update_row_self, H.
Qed.

Lemma seasonal_restock_in_time_notifies_delay_witness :
  type cherries = PRODUCT_TYPE.SEASONAL /\
  inSeason (reading (shelf cherries) 0) cherries && (0 <? available cherries) = false /\
  date_gt (Some (restockDate (reading (shelf cherries) 1) cherries))
          (seasonEndDate cherries) = false /\
  date_gt (seasonStartDate cherries) (Some (reading (shelf cherries) 1)) = false /\
  let r := processProduct cherries (shelf cherries) in
  outcome r = Returned cherries /\
  effects (events r) =
    [DbUpdate cherries; Notified (sendDelayNotification (leadTime cherries) (name cherries))] /\
  (is_Some (stored (shelf cherries) (id cherries)) ->
   stored (world r) (id cherries) = Some cherries).
Proof.
  split; [reflexivity | split; [reflexivity | split; [reflexivity | split; [reflexivity |]]]].
  apply (seasonal_restock_in_time_notifies_delay cherries (shelf cherries)); reflexivity.
Defined.

(** ** The public helpers, called on their own *)

(** X5. [handleSeasonalProduct] writes exactly one record and sends exactly
    one notification, whatever the product and the time; the record is the
    product it leaves, whose [available] is the old value or 0 (it never
    decrements), and the notification is an out-of-stock or a delay one. *)
Theorem handleSeasonalProduct_one_write_one_notification (p : Product) (w : World) :
  let r := handleSeasonalProduct p w in
  exists p' n,
    outcome r = Returned p' /\
    writes (events r) = [p'] /\
    notifications (events r) = [n] /\
    (p' = p \/ p' = set_available 0 p) /\
    (n = sendOutOfStockNotification (name p) \/
     n = sendDelayNotification (leadTime p) (name p)).
Proof.
  open_product p. run. branches; cbn; eexists; eexists;
    (split; [reflexivity |]); (split; [reflexivity |]); (split; [reflexivity |]);
    split; auto.
Qed.

(** X6. [handleExpiredProduct] on its own: with stock and an expiry date
    after the clock reading it decrements and sends nothing, and the
    quantity it leaves is not negative and, up to [MAX_SAFE_INTEGER], is
    the old one less 1; otherwise it sends the expiration notification and
    sets [available] to 0.  Either way it writes exactly the product it
    leaves. *)
Theorem handleExpiredProduct_decrements_or_expires (p : Product) (w : World) :
  let r := handleExpiredProduct p w in
  exists p',
    outcome r = Returned p' /\
    set_available (available p) p' = p /\
    ((0 < available p /\ date_gt (expiryDate p) (Some (reading w 0)) = true /\
      available p' = to_double (available p - 1) /\
      0 <= available p' /\
      (available p <= MAX_SAFE_INTEGER -> available p' = available p - 1) /\
      effects (events r) = [DbUpdate p']) \/
     (~ (0 < available p /\ date_gt (expiryDate p) (Some (reading w 0)) = true) /\
      available p' = 0 /\
      effects (events r) =
        [Notified (sendExpirationNotification (name p) (expiryDate p)); DbUpdate p'])).
Proof.
  open_product p. unfold reading; cbn. run.
  destruct (0 <? av) eqn:Hav; cbn.
  - destruct (date_gt ex (Some (DateMs (clock w (ticks w))))) eqn:Hexp; cbn;
      (eexists; split; [reflexivity|]; cbn; split; [reflexivity|]).
    + left. apply Z.ltb_lt in Hav.
      repeat split; try assumption.
      * now apply decrement_nonneg.
      * intros Hsafe. apply decrement_exact. lia.
    + right. repeat split. intros [_ H]. discriminate H.
  - eexists; split; [reflexivity|]; cbn; split; [reflexivity|].
    right. apply Z.ltb_ge in Hav. repeat split. intros [H _]. lia.
Qed.

(** X7. [notifyDelay] with any lead time: the product leaves with that lead
    time and its other fields as they were, the record is written before
    the notification is sent, and the row, when there is one, reads back
    as the product. *)
Theorem notifyDelay_stores_lead_time (lt : Z) (p : Product) (w : World) :
  let r := notifyDelay lt p w in
  exists p',
    outcome r = Returned p' /\
    leadTime p' = lt /\
    set_leadTime (leadTime p) p' = p /\
    events r = [DbUpdate p'; Notified (sendDelayNotification lt (name p))] /\
    (is_Some (stored w (id p)) -> stored (world r) (id p) = Some p') /\
    (forall k, k <> id p -> stored (world r) k = stored w k).
Proof.
  unfold stored. open_product p. run.
  eexists. split; [reflexivity |]. cbn.
  repeat split.
  - intros H. apply update_row_self, H.
  - intros k Hk. now apply update_row_other.
Qed.
(** ** What an application leaves alone *)

Lemma dom_update_row (p : Product) (rows : gmap Z Product) :
  dom (update_row p rows) = dom rows.
Proof.
  unfold update_row. destruct (rows !! id p) eqn:E; [|reflexivity].
  apply dom_insert_lookup_L. eauto.
Qed.

Lemma update_row_missing (p : Product) (rows : gmap Z Product) :
  rows !! id p = None -> update_row p rows = rows.
Proof. unfold update_row. now intros ->. Qed.

Lemma same_frame_refl (w : World) : same_frame w w.
Proof. unfold same_frame. repeat split; reflexivity || lia. Qed.

Lemma same_frame_trans (w1 w2 w3 : World) :
  same_frame w1 w2 -> same_frame w2 w3 -> same_frame w1 w3.
Proof.
  unfold same_frame. intros (A1 & A2 & A3 & A4 & A5) (B1 & B2 & B3 & B4 & B5).
  repeat split; try congruence. lia.
Qed.

Lemma processProduct_frame (p : Product) (w : World) :
  same_frame w (world (processProduct p w)) /\
  (ticks (world (processProduct p w)) <= 2 + ticks w)%nat /\
  (forall k, k <> id p -> stored (world (processProduct p w)) k = stored w k).
Proof.
  unfold same_frame, stored.
  destruct (productHandlers_cases (type p))
    as [[Hty Hh] | [[Hty Hh] | [[Hty Hh] | [(Hty & Hin & Hh) | (Hty & Hin & Hh)]]]].
  1-3: clear Hh; open_product p; run; branches; cbn;
    repeat split; try reflexivity; try lia; try apply dom_update_row;
    intros k Hk; try reflexivity; now apply update_row_other.
  - unfold processProduct. rewrite Hh. cbn.
    destruct ((type p =? "constructor")%string || (type p =? "toString")%string); cbn;
      repeat split; reflexivity || lia.
  - unfold processProduct. rewrite Hh. cbn. repeat split; reflexivity || lia.
Qed.

Lemma processProduct_thrown (p : Product) (w : World) (e : Exception) :
  outcome (processProduct p w) = Thrown e ->
  world (processProduct p w) = w /\ effects (events (processProduct p w)) = [] /\
  ~ known_type (type p).
Proof.
  destruct (productHandlers_cases (type p))
    as [[Hty Hh] | [[Hty Hh] | [[Hty Hh] | [(Hty & Hin & Hh) | (Hty & Hin & Hh)]]]].
  1-3: assert (Hk : known_type (type p)) by (unfold known_type; tauto);
    destruct (known_type_is_handled p w Hk) as [p' Hp']; rewrite Hp'; discriminate.
  - unfold processProduct. rewrite Hh. cbn.
    destruct ((type p =? "constructor")%string || (type p =? "toString")%string); cbn;
      [discriminate | auto].
  - unfold processProduct. rewrite Hh. cbn. auto.
Qed.

Lemma processProduct_effect_bounds (p : Product) (w : World) :
  (length (writes (events (processProduct p w))) <= 1)%nat /\
  (length (notifications (events (processProduct p w))) <= 1)%nat.
Proof.
  destruct (productHandlers_cases (type p))
    as [[Hty Hh] | [[Hty Hh] | [[Hty Hh] | [(Hty & Hin & Hh) | (Hty & Hin & Hh)]]]].
  1-3: clear Hh; open_product p; run; branches; cbn; lia.
  - unfold processProduct. rewrite Hh. cbn.
    destruct ((type p =? "constructor")%string || (type p =? "toString")%string); cbn; lia.
  - unfold processProduct. rewrite Hh. cbn. lia.
Qed.

(** X8. One application of the engine, to any product: the tables [orders]
    and [orders_to_products] are as before, no row of [products] is added
    or removed, every row with another key than the product's is as
    before, and the clock is read at most twice. *)
Theorem processProduct_touches_one_row (p : Product) (w : World) :
  let r := processProduct p w in
  orders (database (world r)) = orders (database w) /\
  ordersToProducts (database (world r)) = ordersToProducts (database w) /\
  dom (products (database (world r))) = dom (products (database w)) /\
  (forall k, k <> id p -> stored (world r) k = stored w k) /\
  clock (world r) = clock w /\
  (ticks w <= ticks (world r) <= 2 + ticks w)%nat.
Proof.
  destruct (processProduct_frame p w) as ((H1 & H2 & H3 & H4 & H5) & H6 & H7).
  cbn. repeat split; assumption.
Qed.

(** X9. A product that has no row in the table: whatever the engine
    decides, the store is left exactly as it was. *)
Theorem processProduct_without_row (p : Product) (w : World) :
  stored w (id p) = None ->
  database (world (processProduct p w)) = database w.
Proof.
  unfold stored. intros Hnone.
  assert (Hdb : forall q, id q = id p ->
            {| products := update_row q (products (database w));
               orders := orders (database w);
               ordersToProducts := ordersToProducts (database w) |} = database w).
  { intros q Hq. rewrite update_row_missing by (rewrite Hq; exact Hnone).
    destruct (database w); reflexivity. }
  destruct (productHandlers_cases (type p))
    as [[Hty Hh] | [[Hty Hh] | [[Hty Hh] | [(Hty & Hin & Hh) | (Hty & Hin & Hh)]]]].
  1-3: clear Hh; open_product p; run; branches; cbn; try reflexivity; now apply Hdb.
  - unfold processProduct. rewrite Hh. cbn.
    destruct ((type p =? "constructor")%string || (type p =? "toString")%string);
      reflexivity.
  - unfold processProduct. rewrite Hh. reflexivity.
Qed.

Lemma processProduct_without_row_witness :
  stored mixed_order (id usb_dongle) = None /\
  database (world (processProduct usb_dongle mixed_order)) = database mixed_order.
Proof.
  assert (H : stored mixed_order (id usb_dongle) = None) by (vm_compute; reflexivity).
  split; [exact H |].
  apply (processProduct_without_row usb_dongle mixed_order H).
Defined.

(** X10. When the engine throws, the type is none of the three known ones,
    the exception is the unsupported-type error for that type or a
    [TypeError], and nothing happened before it: the world is as it was,
    nothing was written and nothing was sent. *)
Theorem processProduct_throws_before_any_effect (p : Product) (w : World) (e : Exception) :
  outcome (processProduct p w) = Thrown e ->
  ~ known_type (type p) /\
  (e = UnsupportedTypeError (type p) \/ e = TypeError) /\
  world (processProduct p w) = w /\
  effects (events (processProduct p w)) = [].
Proof.
  intros He. destruct (processProduct_thrown p w e He) as (Hw & Hev & Hk).
  repeat split; try assumption.
  destruct (productHandlers_cases (type p))
    as [[Hty Hh] | [[Hty Hh] | [[Hty Hh] | [(Hty & Hin & Hh) | (Hty & Hin & Hh)]]]];
    try (exfalso; apply Hk; unfold known_type; tauto).
  - revert He. unfold processProduct. rewrite Hh. cbn.
    destruct ((type p =? "constructor")%string || (type p =? "toString")%string); cbn;
      [discriminate | intros [= <-]; now right].
  - revert He. unfold processProduct. rewrite Hh. cbn. intros [= <-]. now left.
Qed.

Lemma processProduct_throws_before_any_effect_witness :
  outcome (processProduct coupon broken_order) = Thrown (UnsupportedTypeError "VOUCHER") /\
  ~ known_type (type coupon) /\
  (UnsupportedTypeError "VOUCHER" = UnsupportedTypeError (type coupon) \/
   UnsupportedTypeError "VOUCHER" = TypeError) /\
  world (processProduct coupon broken_order) = broken_order /\
  effects (events (processProduct coupon broken_order)) = [].
Proof.
  assert (H : outcome (processProduct coupon broken_order)
              = Thrown (UnsupportedTypeError "VOUCHER")) by reflexivity.
  split; [exact H |].
  apply (processProduct_throws_before_any_effect coupon broken_order _ H).
Defined.

(** X11. A NORMAL product never looks at the clock: in two worlds with the
    same store the engine returns the same product, emits the same events
    and leaves the same store, and the number of clock readings does not
    move. *)
Theorem normal_is_time_independent (p : Product) (w1 w2 : World) :
  type p = PRODUCT_TYPE.NORMAL ->
  database w1 = database w2 ->
  outcome (processProduct p w1) = outcome (processProduct p w2) /\
  events (processProduct p w1) = events (processProduct p w2) /\
  database (world (processProduct p w1)) = database (world (processProduct p w2)) /\
  ticks (world (processProduct p w1)) = ticks w1.
Proof.
  intros Hty Hdb. open_product p. run.
  branches; cbn; rewrite ?Hdb; repeat split.
Qed.

(** ** Null and out-of-range dates *)

(** X12. An EXPIRABLE product whose expiry date is [null] counts as
    expired at any time from 1970 on, however much stock it has: the
    expiration notification is sent with a null date and [available]
    becomes 0. *)
Theorem expirable_without_expiry_date_expires (p : Product) (w : World) :
  type p = PRODUCT_TYPE.EXPIRABLE ->
  expiryDate p = None ->
  0 <= clock w (ticks w) ->
  0 <= clock w (S (ticks w)) ->
  let r := processProduct p w in
  outcome r = Returned (set_available 0 p) /\
  effects (events r) =
    [Notified (sendExpirationNotification (name p) None); DbUpdate (set_available 0 p)].
Proof.
  intros Hty Hex H1 H2. open_product p. run.
  assert (E1 : date_gt None (Some (DateMs (clock w (ticks w)))) = false)
    by (apply Z.ltb_ge; exact H1).
  assert (E2 : date_gt None (Some (DateMs (clock w (S (ticks w))))) = false)
    by (apply Z.ltb_ge; exact H2).
  rewrite E1, andb_false_r; cbn. rewrite E2, andb_false_r; cbn.
  split; reflexivity.
Qed.

(** X13. A SEASONAL product whose season end is [null] is never in season
    from 1970 on, and a restock date that is a valid date after 1970 counts
    as after the end of the season: the out-of-stock notification is sent
    and [available] becomes 0, however much stock there is. *)
Theorem seasonal_without_season_end_is_out_of_stock (p : Product) (w : World) :
  type p = PRODUCT_TYPE.SEASONAL ->
  seasonEndDate p = None ->
  0 <= clock w (ticks w) ->
  0 < clock w (S (ticks w)) + leadTime p * MILLISECONDS_PER_DAY <= MAX_TIME_VALUE ->
  let r := processProduct p w in
  outcome r = Returned (set_available 0 p) /\
  effects (events r) =
    [Notified (sendOutOfStockNotification (name p)); DbUpdate (set_available 0 p)].
Proof.
  intros Hty Hse H1 [H2 H3]. open_product p. run.
  assert (E1 : inSeason (DateMs (clock w (ticks w)))
                 (mkProduct i lt av "SEASONAL" nm ex ss None) = false).
  { unfold inSeason, date_lt. cbn.
    replace (date_gt None (Some (DateMs (clock w (ticks w))))) with false
      by (symmetry; apply Z.ltb_ge; exact H1).
    apply andb_false_r. }
  assert (E2 : date_gt (Some (restockDate (DateMs (clock w (S (ticks w))))
                                (mkProduct i lt av "SEASONAL" nm ex ss None))) None = true).
  { unfold restockDate, new_Date. cbn.
    replace (Z.abs (clock w (S (ticks w)) + lt * MILLISECONDS_PER_DAY) <=? MAX_TIME_VALUE)
      with true by (symmetry; apply Z.leb_le; lia).
    apply Z.ltb_lt. exact H2. }
  rewrite E1; cbn. rewrite E2; cbn.
  split; reflexivity.
Qed.

(** X14. A lead time that carries the restock date beyond the range of
    [Date] makes the restock date invalid, and an invalid date is after
    nothing: a SEASONAL product that does not take the decrement and whose
    season has started gets the delay notification, whenever its season
    ends. *)
Theorem seasonal_restock_beyond_date_range_notifies_delay (p : Product) (w : World) :
  type p = PRODUCT_TYPE.SEASONAL ->
  MAX_TIME_VALUE < clock w (S (ticks w)) + leadTime p * MILLISECONDS_PER_DAY ->
  inSeason (reading w 0) p && (0 <? available p) = false ->
  date_gt (seasonStartDate p) (Some (reading w 1)) = false ->
  let r := processProduct p w in
  outcome r = Returned p /\
  effects (events r) =
    [DbUpdate p; Notified (sendDelayNotification (leadTime p) (name p))].
Proof.
  intros Hty Hfar Hfast Hstarted. open_product p. unfold reading in *; cbn in *. run.
  assert (E : date_gt (Some (restockDate (DateMs (clock w (S (ticks w))))
                               (mkProduct i lt av "SEASONAL" nm ex ss se))) se = false).
  { unfold restockDate, new_Date. cbn.
    replace (Z.abs (clock w (S (ticks w)) + lt * MILLISECONDS_PER_DAY) <=? MAX_TIME_VALUE)
      with false by (symmetry; apply Z.leb_gt; unfold MAX_TIME_VALUE in *; lia).
    reflexivity. }
  rewrite Hfast; cbn. rewrite E, Hstarted; cbn.
  split; reflexivity.
Qed.
Lemma normal_is_time_independent_witness :
  type usb_cable = PRODUCT_TYPE.NORMAL /\
  database (shelf usb_cable) = database (world (processProduct melon (shelf usb_cable))) /\
  outcome (processProduct usb_cable (shelf usb_cable))
  = outcome (processProduct usb_cable (world (processProduct melon (shelf usb_cable)))) /\
  events (processProduct usb_cable (shelf usb_cable))
  = events (processProduct usb_cable (world (processProduct melon (shelf usb_cable)))) /\
  database (world (processProduct usb_cable (shelf usb_cable)))
  = database (world (processProduct usb_cable
                       (world (processProduct melon (shelf usb_cable))))) /\
  ticks (world (processProduct usb_cable (shelf usb_cable))) = ticks (shelf usb_cable).
Proof.
  assert (Hdb : database (shelf usb_cable)
                = database (world (processProduct melon (shelf usb_cable))))
    by (vm_compute; reflexivity).
  split; [reflexivity | split; [exact Hdb |]].
  apply (normal_is_time_independent usb_cable _ _ eq_refl Hdb).
Defined.

Lemma expirable_without_expiry_date_expires_witness :
  type undated_butter = PRODUCT_TYPE.EXPIRABLE /\
  expiryDate undated_butter = None /\
  0 <= clock (shelf undated_butter) (ticks (shelf undated_butter)) /\
  0 <= clock (shelf undated_butter) (S (ticks (shelf undated_butter))) /\
  let r := processProduct undated_butter (shelf undated_butter) in
  outcome r = Returned (set_available 0 undated_butter) /\
  effects (events r) =
    [Notified (sendExpirationNotification (name undated_butter) None);
     DbUpdate (set_available 0 undated_butter)].
Proof.
  assert (H1 : 0 <= clock (shelf undated_butter) (ticks (shelf undated_butter)))
    by (vm_compute; discriminate).
  assert (H2 : 0 <= clock (shelf undated_butter) (S (ticks (shelf undated_butter))))
    by (vm_compute; discriminate).
  split; [reflexivity | split; [reflexivity | split; [exact H1 | split; [exact H2 |]]]].
  apply (expirable_without_expiry_date_expires undated_butter (shelf undated_butter)
           eq_refl eq_refl H1 H2).
Defined.

Lemma seasonal_without_season_end_is_out_of_stock_witness :
  type undated_melon = PRODUCT_TYPE.SEASONAL /\
  seasonEndDate undated_melon = None /\
  0 <= clock (shelf undated_melon) (ticks (shelf undated_melon)) /\
  0 < clock (shelf undated_melon) (S (ticks (shelf undated_melon)))
      + leadTime undated_melon * MILLISECONDS_PER_DAY <= MAX_TIME_VALUE /\
  let r := processProduct undated_melon (shelf undated_melon) in
  outcome r = Returned (set_available 0 undated_melon) /\
  effects (events r) =
    [Notified (sendOutOfStockNotification (name undated_melon));
     DbUpdate (set_available 0 undated_melon)].
Proof.
  assert (H1 : 0 <= clock (shelf undated_melon) (ticks (shelf undated_melon)))
    by (vm_compute; discriminate).
  assert (H2 : 0 < clock (shelf undated_melon) (S (ticks (shelf undated_melon)))
                   + leadTime undated_melon * MILLISECONDS_PER_DAY <= MAX_TIME_VALUE)
    by (split; [vm_compute; reflexivity | vm_compute; discriminate]).
  split; [reflexivity | split; [reflexivity | split; [exact H1 | split; [exact H2 |]]]].
  apply (seasonal_without_season_end_is_out_of_stock undated_melon (shelf undated_melon)
           eq_refl eq_refl H1 H2).
Defined.

Lemma seasonal_restock_beyond_date_range_notifies_delay_witness :
  type remote_cherries = PRODUCT_TYPE.SEASONAL /\
  MAX_TIME_VALUE < clock (shelf remote_cherries) (S (ticks (shelf remote_cherries)))
                   + leadTime remote_cherries * MILLISECONDS_PER_DAY /\
  inSeason (reading (shelf remote_cherries) 0) remote_cherries
    && (0 <? available remote_cherries) = false /\
  date_gt (seasonStartDate remote_cherries) (Some (reading (shelf remote_cherries) 1))
    = false /\
  let r := processProduct remote_cherries (shelf remote_cherries) in
  outcome r = Returned remote_cherries /\
  effects (events r) =
    [DbUpdate remote_cherries;
     Notified (sendDelayNotification (leadTime remote_cherries) (name remote_cherries))].
Proof.
  split; [reflexivity | split; [reflexivity | split; [reflexivity | split; [reflexivity |]]]].
  apply (seasonal_restock_beyond_date_range_notifies_delay remote_cherries
           (shelf remote_cherries)); reflexivity.
Defined.

(** ** Orders with line items *)

Lemma writes_app (a b : list Event) : writes (a ++ b)%list = (writes a ++ writes b)%list.
Proof. apply omap_app. Qed.

Lemma notifications_app (a b : list Event) :
  notifications (a ++ b)%list = (notifications a ++ notifications b)%list.
Proof. apply omap_app. Qed.

Lemma effects_app (a b : list Event) : effects (a ++ b)%list = (effects a ++ effects b)%list.
Proof. apply List.filter_app. Qed.

Lemma writes_logged (level : LogLevel) (msg : string) (evs : list Event) :
  writes (Logged level msg :: evs) = writes evs.
Proof. reflexivity. Qed.

Lemma notifications_logged (level : LogLevel) (msg : string) (evs : list Event) :
  notifications (Logged level msg :: evs) = notifications evs.
Proof. reflexivity. Qed.

Lemma effects_logged (level : LogLevel) (msg : string) (evs : list Event) :
  effects (Logged level msg :: evs) = effects evs.
Proof. reflexivity. Qed.

Lemma events_triple {A : Type} (o : Outcome A) (w : World) (evs : list Event) :
  events (o, w, evs) = evs.
Proof. reflexivity. Qed.

Lemma world_triple {A : Type} (o : Outcome A) (w : World) (evs : list Event) :
  world (o, w, evs) = w.
Proof. reflexivity. Qed.

Lemma outcome_triple {A : Type} (o : Outcome A) (w : World) (evs : list Event) :
  outcome (o, w, evs) = o.
Proof. reflexivity. Qed.

(** One turn of the loop of [processOrder]. *)
Lemma processProducts_cons (p : Product) (rest : list Product) (w : World) :
  processProducts (p :: rest) w =
  match outcome (processProduct p w) with
  | Returned _ =>
      let r := processProducts rest (world (processProduct p w)) in
      (outcome r, world r,
       (Logged debug "Processing product" :: events (processProduct p w) ++ events r)%list)
  | Thrown e =>
      (Thrown e, world (processProduct p w),
       Logged debug "Processing product" :: events (processProduct p w))
  end.
Proof.
  cbn [processProducts]. unfold bind, logger, emit, outcome, world, events.
  destruct (processProduct p w) as [[[p' | e] w1] ev1]; cbn; [|reflexivity].
  destruct (processProducts rest w1) as [[o w2] ev2]; reflexivity.
Qed.

(** The loop over a list in two parts runs the first part and, when that
    returns, the second part from the world the first leaves. *)
Lemma processProducts_app (a b : list Product) (w : World) :
  processProducts (a ++ b)%list w =
  match outcome (processProducts a w) with
  | Returned _ =>
      let r := processProducts b (world (processProducts a w)) in
      (outcome r, world r, (events (processProducts a w) ++ events r)%list)
  | Thrown e => (Thrown e, world (processProducts a w), events (processProducts a w))
  end.
Proof.
  revert w. induction a as [|p a IH]; intros w.
  - cbn. destruct (processProducts b w) as [[o w2] ev2]; reflexivity.
  - rewrite <- app_comm_cons, !processProducts_cons.
    set (rp := processProduct p w).
    destruct (outcome rp) as [p' | e]; [|reflexivity].
    cbv zeta. rewrite IH, !outcome_triple, !world_triple, !events_triple.
    destruct (outcome (processProducts a (world rp))); cbv zeta;
      rewrite ?outcome_triple, ?world_triple, ?events_triple, ?app_assoc; reflexivity.
Qed.

Lemma processProducts_known (items : list Product) (w : World) :
  (forall item, In item items -> known_type (type item)) ->
  outcome (processProducts items w) = Returned tt.
Proof.
  revert w. induction items as [|p items IH]; intros w Hknown; [reflexivity|].
  rewrite processProducts_cons.
  destruct (known_type_is_handled p w (Hknown p (or_introl eq_refl))) as [p' ->].
  cbv zeta. rewrite outcome_triple. apply IH. intros item Hitem. apply Hknown. now right.
Qed.

Lemma processProducts_frame (items : list Product) (w : World) :
  same_frame w (world (processProducts items w)) /\
  (forall k, (forall item, In item items -> id item <> k) ->
             stored (world (processProducts items w)) k = stored w k).
Proof.
  revert w. induction items as [|p items IH]; intros w.
  - split; [apply same_frame_refl | reflexivity].
  - rewrite processProducts_cons.
    destruct (processProduct_frame p w) as (Hf & _ & Hrows).
    destruct (IH (world (processProduct p w))) as (Hf' & Hrows').
    set (rp := processProduct p w) in *.
    destruct (outcome rp) as [p' | e]; cbv zeta; rewrite !world_triple.
    + split; [exact (same_frame_trans _ _ _ Hf Hf') |].
      intros k Hk. rewrite Hrows' by (intros item Hitem; apply Hk; now right).
      apply Hrows. intros ->. now apply (Hk p); [left|].
    + split; [exact Hf |].
      intros k Hk. apply Hrows. intros ->. now apply (Hk p); [left|].
Qed.

Lemma processProducts_effect_bounds (items : list Product) (w : World) :
  (length (writes (events (processProducts items w))) <= length items)%nat /\
  (length (notifications (events (processProducts items w))) <= length items)%nat.
Proof.
  revert w. induction items as [|p items IH]; intros w; [cbn; lia|].
  rewrite processProducts_cons.
  destruct (processProduct_effect_bounds p w) as [Hw Hn].
  destruct (IH (world (processProduct p w))) as [Hw' Hn'].
  set (rp := processProduct p w) in *.
  set (rr := processProducts items (world rp)) in *.
  destruct (outcome rp) as [p' | e]; cbv zeta; rewrite !events_triple;
    rewrite !writes_logged, !notifications_logged,
      ?writes_app, ?notifications_app, ?length_app; cbn [length]; lia.
Qed.

(** [processOrder] on an order that exists. *)
Lemma processOrder_found (orderId : Z) (w : World) :
  orderId ∈ orders (database w) ->
  processOrder orderId w =
  let r := processProducts (line_items (database w) orderId) w in
  match outcome r with
  | Returned _ =>
      (Returned orderId, world r,
       (Logged info "Fetching order with products"
        :: Logged info "Processing products for order"
        :: events r ++ [Logged info "Order processing completed"])%list)
  | Thrown e =>
      (Thrown e, world r,
       Logged info "Fetching order with products"
       :: Logged info "Processing products for order" :: events r)
  end.
Proof.
  intros Hin. unfold processOrder, bind, findOrderWithProducts, logger, emit, line_items.
  cbn. destruct (decide (orderId ∈ orders (database w))) as [_ | Hout]; [|contradiction].
  cbn. unfold outcome, world, events.
  destruct (processProducts _ w) as [[[[] | e] w1] ev1]; reflexivity.
Qed.

Lemma processOrder_missing (orderId : Z) (w : World) :
  orderId ∉ orders (database w) ->
  processOrder orderId w =
  (Thrown (OrderNotFoundError orderId), w,
   [Logged info "Fetching order with products"; Logged warn "Order not found"]).
Proof.
  intros Hout. unfold processOrder, bind, findOrderWithProducts, logger, emit.
  cbn. destruct (decide (orderId ∈ orders (database w))) as [Hin | _]; [contradiction|].
  reflexivity.
Qed.

(** X15. [processOrder] changes nothing but rows of [products] that are
    line items of the order: [orders] and [orders_to_products] are as
    before, no row of [products] is added or removed, and every row whose
    key is not the [id] of a line item is as before. *)
Theorem processOrder_touches_only_line_items (orderId : Z) (w : World) :
  let r := processOrder orderId w in
  orders (database (world r)) = orders (database w) /\
  ordersToProducts (database (world r)) = ordersToProducts (database w) /\
  dom (products (database (world r))) = dom (products (database w)) /\
  (forall k, (forall item, In item (line_items (database w) orderId) -> id item <> k) ->
             stored (world r) k = stored w k).
Proof.
  cbv zeta. destruct (decide (orderId ∈ orders (database w))) as [Hin | Hout].
  - rewrite (processOrder_found _ _ Hin). cbv zeta.
    destruct (processProducts_frame (line_items (database w) orderId) w)
      as ((_ & _ & H1 & H2 & H3) & H4).
    destruct (outcome (processProducts _ w)); rewrite world_triple; auto.
  - rewrite (processOrder_missing _ _ Hout), world_triple. auto.
Qed.

(** X16. An order that exists and whose line items all have one of the
    three known types is processed to the end: [processOrder] returns the
    order's identifier. *)
Theorem processOrder_known_types_returns (orderId : Z) (w : World) :
  orderId ∈ orders (database w) ->
  (forall item, In item (line_items (database w) orderId) -> known_type (type item)) ->
  outcome (processOrder orderId w) = Returned orderId.
Proof.
  intros Hin Hknown. rewrite (processOrder_found _ _ Hin). cbv zeta.
  rewrite (processProducts_known _ w Hknown). reflexivity.
Qed.

Lemma processOrder_known_types_returns_witness :
  (13 ∈ orders (database mixed_order)) /\
  (forall item, In item (line_items (database mixed_order) 13) -> known_type (type item)) /\
  outcome (processOrder 13 mixed_order) = Returned 13.
Proof.
  assert (Hin : 13 ∈ orders (database mixed_order)) by (vm_compute; reflexivity).
  assert (Hknown : forall item, In item (line_items (database mixed_order) 13) ->
                                known_type (type item)).
  { intros item [<- | [<- | [<- | []]]]; unfold known_type; cbn; auto. }
  split; [exact Hin | split; [exact Hknown |]].
  apply (processOrder_known_types_returns 13 mixed_order Hin Hknown).
Defined.

(** X17. Whenever [processOrder] returns, the order exists and the value
    returned is the identifier that was asked for. *)
Theorem processOrder_returns_requested_id (orderId : Z) (w : World) (a : Z) :
  outcome (processOrder orderId w) = Returned a ->
  a = orderId /\ orderId ∈ orders (database w).
Proof.
  destruct (decide (orderId ∈ orders (database w))) as [Hin | Hout].
  - rewrite (processOrder_found _ _ Hin). cbv zeta.
    destruct (outcome (processProducts _ w)); rewrite outcome_triple;
      [intros [= <-]; auto | discriminate].
  - rewrite (processOrder_missing _ _ Hout), outcome_triple. discriminate.
Qed.

Lemma processOrder_returns_requested_id_witness :
  outcome (processOrder 12 empty_order) = Returned 12 /\
  12 = 12 /\ (12 ∈ orders (database empty_order)).
Proof.
  assert (H : outcome (processOrder 12 empty_order) = Returned 12) by reflexivity.
  split; [exact H |].
  apply (processOrder_returns_requested_id 12 empty_order 12 H).
Defined.

(** X18. The first line item whose type has no handler ends the order:
    [processOrder] throws the unsupported-type error for that type, the
    line items before it have been processed and their writes stay, and
    the line items after it are not processed. *)
Theorem processOrder_stops_at_unsupported_type
    (orderId : Z) (w : World) (before : list Product) (bad : Product) (rest : list Product) :
  orderId ∈ orders (database w) ->
  line_items (database w) orderId = (before ++ bad :: rest)%list ->
  (forall item, In item before -> known_type (type item)) ->
  ~ known_type (type bad) ->
  ~ In (type bad) Object_prototype ->
  let r := processOrder orderId w in
  outcome r = Thrown (UnsupportedTypeError (type bad)) /\
  world r = world (processProducts before w) /\
  effects (events r) = effects (events (processProducts before w)).
Proof.
  intros Hin Hitems Hknown Hbad1 Hbad2.
  rewrite (processOrder_found _ _ Hin). cbv zeta.
  rewrite Hitems, processProducts_app, (processProducts_known _ w Hknown). cbv zeta.
  set (r0 := processProducts before w).
  rewrite processProducts_cons.
  assert (Hthrown : outcome (processProduct bad (world r0))
                    = Thrown (UnsupportedTypeError (type bad)))
    by (apply unsupported_type_error_iff; auto).
  destruct (processProduct_thrown _ _ _ Hthrown) as (Hw & Hev & _).
  rewrite Hthrown, !outcome_triple, !world_triple, !events_triple, Hw.
  repeat split.
  rewrite !effects_logged, effects_app, effects_logged, Hev.
  apply app_nil_r.
Qed.

Lemma processOrder_stops_at_unsupported_type_witness :
  (13 ∈ orders (database broken_order)) /\
  line_items (database broken_order) 13 = ([hdmi_cable] ++ coupon :: [cheese; melon])%list /\
  (forall item, In item [hdmi_cable] -> known_type (type item)) /\
  ~ known_type (type coupon) /\
  ~ In (type coupon) Object_prototype /\
  let r := processOrder 13 broken_order in
  outcome r = Thrown (UnsupportedTypeError (type coupon)) /\
  world r = world (processProducts [hdmi_cable] broken_order) /\
  effects (events r) = effects (events (processProducts [hdmi_cable] broken_order)).
Proof.
  assert (Hin : 13 ∈ orders (database broken_order)) by (vm_compute; reflexivity).
  assert (Hitems : line_items (database broken_order) 13
                   = ([hdmi_cable] ++ coupon :: [cheese; melon])%list)
    by (vm_compute; reflexivity).
  assert (Hknown : forall item, In item [hdmi_cable] -> known_type (type item)).
  { intros item [<- | []]. left. reflexivity. }
  assert (Hbad1 : ~ known_type (type coupon)).
  { unfold known_type. cbn. intros [H | [H | H]]; discriminate H. }
  assert (Hbad2 : ~ In (type coupon) Object_prototype).
  { cbn. intros H. repeat destruct H as [H | H]; try discriminate H. exact H. }
  split; [exact Hin | split; [exact Hitems | split; [exact Hknown |
    split; [exact Hbad1 | split; [exact Hbad2 |]]]]].
  apply (processOrder_stops_at_unsupported_type 13 broken_order
           [hdmi_cable] coupon [cheese; melon] Hin Hitems Hknown Hbad1 Hbad2).
Defined.

(** X19. An order writes at most one record and sends at most one
    notification per line item. *)
Theorem processOrder_effects_bounded_by_line_items (orderId : Z) (w : World) :
  let r := processOrder orderId w in
  (length (writes (events r)) <= length (line_items (database w) orderId))%nat /\
  (length (notifications (events r)) <= length (line_items (database w) orderId))%nat.
Proof.
  cbv zeta. destruct (decide (orderId ∈ orders (database w))) as [Hin | Hout].
  - rewrite (processOrder_found _ _ Hin). cbv zeta.
    destruct (processProducts_effect_bounds (line_items (database w) orderId) w) as [Hw Hn].
    remember (processProducts (line_items (database w) orderId) w) as rr eqn:Hrr.
    remember (line_items (database w) orderId) as items eqn:Hitems.
    destruct (outcome rr); rewrite events_triple, !writes_logged,
      !notifications_logged, ?writes_app, ?notifications_app, ?length_app; cbn; lia.
  - rewrite (processOrder_missing _ _ Hout), events_triple. cbn. lia.
Qed.

(** X20. An EXPIRABLE product without stock is handled as expired whatever
    its expiry date and whatever the clock says: the expiration
    notification is sent and the record is written with [available] 0. *)
Theorem expirable_without_stock_expires (p : Product) (w : World) :
  type p = PRODUCT_TYPE.EXPIRABLE ->
  available p <= 0 ->
  let r := processProduct p w in
  outcome r = Returned (set_available 0 p) /\
  effects (events r) =
    [Notified (sendExpirationNotification (name p) (expiryDate p));
     DbUpdate (set_available 0 p)].
Proof.
  intros Hty Hav. apply Z.ltb_ge in Hav. open_product p. run.
  rewrite Hav; cbn. split; reflexivity.
Qed.

Lemma expirable_without_stock_expires_witness :
  type yogurt = PRODUCT_TYPE.EXPIRABLE /\
  available yogurt <= 0 /\
  let r := processProduct yogurt (shelf yogurt) in
  outcome r = Returned (set_available 0 yogurt) /\
  effects (events r) =
    [Notified (sendExpirationNotification (name yogurt) (expiryDate yogurt));
     DbUpdate (set_available 0 yogurt)].
Proof.
  assert (H0 : available yogurt <= 0) by (vm_compute; discriminate).
  split; [reflexivity | split; [exact H0 |]].
  apply (expirable_without_stock_expires yogurt (shelf yogurt) eq_refl H0).
Defined.

(** X21. A SEASONAL product whose season ended before the first reading of
    the clock, with a lead time that is not negative and a restock date
    within the range of [Date]: the out-of-stock notification is sent and
    [available] becomes 0, however much stock is left. *)
Theorem seasonal_after_season_end_is_out_of_stock (p : Product) (w : World) (e : Z) :
  type p = PRODUCT_TYPE.SEASONAL ->
  seasonEndDate p = Some (DateMs e) ->
  e < clock w (ticks w) ->
  readings_in_order w ->
  0 <= leadTime p ->
  Z.abs (clock w (S (ticks w)) + leadTime p * MILLISECONDS_PER_DAY) <= MAX_TIME_VALUE ->
  let r := processProduct p w in
  outcome r = Returned (set_available 0 p) /\
  effects (events r) =
    [Notified (sendOutOfStockNotification (name p)); DbUpdate (set_available 0 p)].
Proof.
  intros Hty Hse Hpast Hclock Hlt Hrange. unfold readings_in_order in Hclock.
  open_product p. run.
  assert (E1 : inSeason (DateMs (clock w (ticks w)))
                 (mkProduct i lt av "SEASONAL" nm ex ss (Some (DateMs e))) = false).
  { unfold inSeason, date_lt. cbn. rewrite date_gt_DateMs.
    replace (clock w (ticks w) <? e) with false by (symmetry; apply Z.ltb_ge; lia).
    apply andb_false_r. }
  assert (E2 : date_gt (Some (restockDate (DateMs (clock w (S (ticks w))))
                                (mkProduct i lt av "SEASONAL" nm ex ss (Some (DateMs e)))))
                       (Some (DateMs e)) = true).
  { unfold restockDate, new_Date. cbn.
    replace (Z.abs (clock w (S (ticks w)) + lt * MILLISECONDS_PER_DAY) <=? MAX_TIME_VALUE)
      with true by (symmetry; apply Z.leb_le; exact Hrange).
    rewrite date_gt_DateMs. apply Z.ltb_lt. unfold MILLISECONDS_PER_DAY. lia. }
  rewrite E1; cbn. rewrite E2; cbn.
  split; reflexivity.
Qed.

Lemma seasonal_after_season_end_is_out_of_stock_witness :
  type pumpkin = PRODUCT_TYPE.SEASONAL /\
  seasonEndDate pumpkin = Some (DateMs (T0 - 5 * DAY_MS)) /\
  T0 - 5 * DAY_MS < clock (shelf pumpkin) (ticks (shelf pumpkin)) /\
  readings_in_order (shelf pumpkin) /\
  0 <= leadTime pumpkin /\
  Z.abs (clock (shelf pumpkin) (S (ticks (shelf pumpkin)))
         + leadTime pumpkin * MILLISECONDS_PER_DAY) <= MAX_TIME_VALUE /\
  let r := processProduct pumpkin (shelf pumpkin) in
  outcome r = Returned (set_available 0 pumpkin) /\
  effects (events r) =
    [Notified (sendOutOfStockNotification (name pumpkin));
     DbUpdate (set_available 0 pumpkin)].
Proof.
  assert (H1 : T0 - 5 * DAY_MS < clock (shelf pumpkin) (ticks (shelf pumpkin)))
    by (vm_compute; reflexivity).
  assert (H2 : readings_in_order (shelf pumpkin)) by (vm_compute; discriminate).
  assert (H3 : 0 <= leadTime pumpkin) by (vm_compute; discriminate).
  assert (H4 : Z.abs (clock (shelf pumpkin) (S (ticks (shelf pumpkin)))
                      + leadTime pumpkin * MILLISECONDS_PER_DAY) <= MAX_TIME_VALUE)
    by (vm_compute; discriminate).
  split; [reflexivity | split; [reflexivity | split; [exact H1 | split; [exact H2 |
    split; [exact H3 | split; [exact H4 |]]]]]].
  apply (seasonal_after_season_end_is_out_of_stock pumpkin (shelf pumpkin) _
           eq_refl eq_refl H1 H2 H3 H4).
Defined.

Lemma line_items_linked (db : Database) (orderId : Z) (item : Product) :
  In item (line_items db orderId) ->
  exists k, In (orderId, k) (ordersToProducts db) /\ products db !! k = Some item.
Proof.
  unfold line_items. induction (ordersToProducts db) as [|[o k] links IH]; cbn; [tauto|].
  destruct (o =? orderId) eqn:E; cbn.
  - apply Z.eqb_eq in E. subst o.
    destruct (products db !! k) as [row|] eqn:Hrow; cbn.
    + intros [<- | Hin]; [exists k; auto |].
      destruct (IH Hin) as (k' & Hk' & Hrow'). exists k'. auto.
    + intros Hin. destruct (IH Hin) as (k' & Hk' & Hrow'). exists k'. auto.
  - intros Hin. destruct (IH Hin) as (k' & Hk' & Hrow'). exists k'. auto.
Qed.

(** X22. In a store whose rows are kept under their own [id],
    [processOrder] leaves every product that is not linked to the order as
    it was. *)
Theorem processOrder_leaves_unlinked_products (orderId : Z) (w : World) (k : Z) :
  well_keyed (database w) ->
  ~ In (orderId, k) (ordersToProducts (database w)) ->
  stored (world (processOrder orderId w)) k = stored w k.
Proof.
  intros Hkeys Hunlinked.
  destruct (decide (orderId ∈ orders (database w))) as [Hin | Hout].
  - rewrite (processOrder_found _ _ Hin). cbv zeta.
    destruct (processProducts_frame (line_items (database w) orderId) w) as (_ & Hrows).
    assert (Hk : forall item, In item (line_items (database w) orderId) -> id item <> k).
    { intros item Hitem Hid. apply line_items_linked in Hitem as (k' & Hk' & Hrow).
      apply Hkeys in Hrow. apply Hunlinked. congruence. }
    destruct (outcome (processProducts _ w)); rewrite world_triple; auto.
  - rewrite (processOrder_missing _ _ Hout), world_triple. reflexivity.
Qed.

(** The theorem at [two_orders]: order 13 changes the row of its own
    product 12 and leaves the row of product 1, which belongs to order 7,
    as it was. *)
Lemma processOrder_leaves_unlinked_products_witness :
  well_keyed (database two_orders) /\
  ~ In (13, 1) (ordersToProducts (database two_orders)) /\
  stored two_orders 1 = Some usb_cable /\
  stored (world (processOrder 13 two_orders)) 12 = Some (set_available 29 hdmi_cable) /\
  stored (world (processOrder 13 two_orders)) 1 = stored two_orders 1.
Proof.
  assert (Hkeys : well_keyed (database two_orders)).
  { intros k row Hrow.
    destruct (decide (k = 1)) as [-> | H1]; [vm_compute in Hrow; now inversion Hrow |].
    destruct (decide (k = 12)) as [-> | H12]; [vm_compute in Hrow; now inversion Hrow |].
    destruct (decide (k = 13)) as [-> | H13]; [vm_compute in Hrow; now inversion Hrow |].
    destruct (decide (k = 14)) as [-> | H14]; [vm_compute in Hrow; now inversion Hrow |].
    unfold two_orders, world_with in Hrow. cbn in Hrow.
    rewrite !lookup_insert_ne, lookup_empty in Hrow by congruence. discriminate Hrow. }
  assert (Hun : ~ In (13, 1) (ordersToProducts (database two_orders))).
  { cbn. intros H. repeat destruct H as [H | H]; try discriminate H. exact H. }
  split; [exact Hkeys | split; [exact Hun | split; [vm_compute; reflexivity |
    split; [vm_compute; reflexivity |]]]].
  apply (processOrder_leaves_unlinked_products 13 two_orders 1 Hkeys Hun).
Defined.

(** X23. An order with a single line item does to the store and to the
    notification port exactly what the engine does when applied to that
    item; it returns the order's identifier when the engine returns and
    throws what the engine throws. *)
Theorem processOrder_single_line_item (orderId : Z) (w : World) (p : Product) :
  orderId ∈ orders (database w) ->
  line_items (database w) orderId = [p] ->
  world (processOrder orderId w) = world (processProduct p w) /\
  effects (events (processOrder orderId w)) = effects (events (processProduct p w)) /\
  outcome (processOrder orderId w) =
    match outcome (processProduct p w) with
    | Returned _ => Returned orderId
    | Thrown e => Thrown e
    end.
Proof.
  intros Hin Hitems. rewrite (processOrder_found _ _ Hin). cbv zeta.
  rewrite Hitems, processProducts_cons.
  remember (processProduct p w) as rp eqn:Hrp.
  destruct (outcome rp) as [p' | e]; cbn -[effects];
    rewrite ?effects_logged, ?effects_app, ?app_nil_r; cbn; rewrite ?app_nil_r; auto.
Qed.

Lemma processOrder_single_line_item_witness :
  (7 ∈ orders (database (world_with [usb_cable] [7] [(7, 1)]))) /\
  line_items (database (world_with [usb_cable] [7] [(7, 1)])) 7 = [usb_cable] /\
  world (processOrder 7 (world_with [usb_cable] [7] [(7, 1)]))
  = world (processProduct usb_cable (world_with [usb_cable] [7] [(7, 1)])) /\
  effects (events (processOrder 7 (world_with [usb_cable] [7] [(7, 1)])))
  = effects (events (processProduct usb_cable (world_with [usb_cable] [7] [(7, 1)]))) /\
  outcome (processOrder 7 (world_with [usb_cable] [7] [(7, 1)])) =
    match outcome (processProduct usb_cable (world_with [usb_cable] [7] [(7, 1)])) with
    | Returned _ => Returned 7
    | Thrown e => Thrown e
    end.
Proof.
  assert (Hin : 7 ∈ orders (database (world_with [usb_cable] [7] [(7, 1)])))
    by (vm_compute; reflexivity).
  assert (Hitems : line_items (database (world_with [usb_cable] [7] [(7, 1)])) 7
                   = [usb_cable]) by (vm_compute; reflexivity).
  split; [exact Hin | split; [exact Hitems |]].
  apply (processOrder_single_line_item 7 _ usb_cable Hin Hitems).
Defined.

(** X24. The last unit of a NORMAL product with a positive lead time: the
    first application sells it, and the next application to the product as
    the first one left it writes the record with [available] 0 and sends
    the delay notification. *)
Theorem normal_last_unit_then_delay (p : Product) (w : World) :
  type p = PRODUCT_TYPE.NORMAL ->
  available p = 1 ->
  0 < leadTime p ->
  let r1 := processProduct p w in
  let sold := set_available 0 p in
  outcome r1 = Returned sold /\
  effects (events r1) = [DbUpdate sold] /\
  outcome (processProduct sold (world r1)) = Returned sold /\
  effects (events (processProduct sold (world r1))) =
    [DbUpdate sold; Notified (sendDelayNotification (leadTime p) (name p))].
Proof.
  intros Hty Hav Hlt. apply Z.ltb_lt in Hlt.
  open_product p. run.
  change (to_double (1 - 1)) with 0.
  change (0 <? 1) with true. cbn.
  rewrite Z.ltb_irrefl, Hlt. cbn.
  repeat split.
Qed.

Lemma normal_last_unit_then_delay_witness :
  type last_cable = PRODUCT_TYPE.NORMAL /\
  available last_cable = 1 /\
  0 < leadTime last_cable /\
  let r1 := processProduct last_cable (shelf last_cable) in
  let sold := set_available 0 last_cable in
  outcome r1 = Returned sold /\
  effects (events r1) = [DbUpdate sold] /\
  outcome (processProduct sold (world r1)) = Returned sold /\
  effects (events (processProduct sold (world r1))) =
    [DbUpdate sold;
     Notified (sendDelayNotification (leadTime last_cable) (name last_cable))].
Proof.
  split; [reflexivity | split; [reflexivity | split; [reflexivity |]]].
  apply (normal_last_unit_then_delay last_cable (shelf last_cable)); reflexivity.
Defined.
